(** * The Vector PMDA task-status protocol (src/vector.c)

    A shallow embedding of the store and fetch paths of the Vector PMDA:
    the per-context status files, the argument validator, the launch
    dispatcher [vector_store] and the status resolver
    [vector_fetchCallBack], with the properties of the task-status
    protocol proved (or refuted) over them.

    Conventions of the embedding:
    - a C string is a [string]; the end of the [string] plays the part of
      the terminating NUL, so a C string holds no NUL byte itself;
    - the bytes of a file are a [string] too, and may hold any byte: a
      buffer filled by [read] is turned into a C string by [cstr];
    - a C [int] is a [Z];
    - the file system, the environment, the commands handed to [system]
      and the lines written to stderr are the fields of a [world] that is
      threaded through the calls. *)

From stdpp Require Import gmap strings pretty.
From Stdlib Require Import ZArith Ascii.

Open Scope Z_scope.

(** ** C strings *)

Module CString.

Definition NUL : ascii := "000"%char.
Definition LF : ascii := "010"%char.

(** The C string that starts at the first byte of a buffer: the bytes
    before the first NUL. *)
Fixpoint cstr (buf : string) : string :=
  match buf with
  | EmptyString => EmptyString
  | String c rest => if Ascii.eqb c NUL then EmptyString else String c (cstr rest)
  end.

(** A status line as the worker scripts write it: the text and a newline. *)
Definition line (s : string) : string := s +:+ String LF "".

(** The value of a byte as an [unsigned char] and as a plain (signed)
    [char]. *)
Definition uchar (c : ascii) : Z := Z.of_N (N_of_ascii c).
Definition schar (c : ascii) : Z :=
  if uchar c <? 128 then uchar c else uchar c - 256.

(** [strcmp]: the difference of the first two bytes that differ, compared
    as [unsigned char]; 0 when the strings are equal. *)
Fixpoint strcmp (s1 s2 : string) : Z :=
  match s1, s2 with
  | EmptyString, EmptyString => 0
  | EmptyString, String c2 _ => 0 - uchar c2
  | String c1 _, EmptyString => uchar c1
  | String c1 r1, String c2 r2 =>
      if uchar c1 =? uchar c2 then strcmp r1 r2 else uchar c1 - uchar c2
  end.

(** [strstr]: the offset of the first occurrence of [needle] in
    [haystack], as a pointer relative to [haystack]; [None] is NULL. *)
Fixpoint strstr (haystack needle : string) : option nat :=
  if String.prefix needle haystack then Some 0%nat
  else match haystack with
       | EmptyString => None
       | String _ rest => S <$> strstr rest needle
       end.

(** [strstr(s, needle) != s]: the pointer comparison of the busy check. *)
Definition strstr_ne_start (haystack needle : string) : bool :=
  match strstr haystack needle with
  | Some O => false
  | _ => true
  end.

(** [sprintf] into a [char buf[size]]: the text and its NUL have to fit,
    writing past the end is undefined ([None]). *)
Definition sprintf_into (size : nat) (text : string) : option string :=
  if (String.length text <? size)%nat then Some text else None.

(** A C condition: an [int] is true when it is not 0. *)
Definition truthy (z : Z) : bool := negb (z =? 0).

End CString.

Import CString.

(** ** The world the agent runs in *)

(** A status file either holds bytes or is there and fails to be read
    ([read] returns -1, an I/O error). *)
Inductive node : Type :=
| File (data : string)
| Faulty.

Record world : Type := World {
  files : gmap string node;       (* path -> file *)
  environ : gmap string string;   (* the process environment *)
  launched : list string;         (* the commands handed to system(3), oldest first *)
  errlog : list string            (* what was written to stderr, oldest first *)
}.

Definition set_files (fs : gmap string node) (w : world) : world :=
  World fs (environ w) (launched w) (errlog w).

(** [open(path, O_RDONLY)]: the file behind the descriptor, when the call
    gives a descriptor above 0. Descriptors 0 to 2 are taken while the agent
    runs, so a successful [open] passes the test [fd > 0] of the source. *)
Definition open_rdonly (w : world) (path : string) : option node :=
  files w !! path.

(** [read(fd, buf, count)]: the number of bytes read and the bytes, at most
    [count] from the start of the file. *)
Definition read (n : node) (count : Z) : Z * string :=
  match n with
  | File data =>
      let sz := Z.min (Z.of_nat (String.length data)) count in
      (sz, String.substring 0 (Z.to_nat sz) data)
  | Faulty => (-1, EmptyString)
  end.

(** [unlink(path)]. *)
Definition unlink (w : world) (path : string) : world :=
  set_files (delete path (files w)) w.

(** [setenv(name, value, 1)]. *)
Definition setenv (name value : string) (w : world) : world :=
  World (files w) (<[name := value]> (environ w)) (launched w) (errlog w).

(** What the shell launch comes back with: the value of [system] and the
    text [pmErrStr(-oserror())] gives for the error it left. *)
Record spawn : Type := Spawn {
  sys_status : Z;
  sys_errstr : string
}.

(** [system(cmd)]: the command is handed to the shell, which puts the worker
    in the background; the worker writes its status file on its own later. *)
Definition system (cmd : string) (sp : spawn) (w : world) : Z * world :=
  (sys_status sp, World (files w) (environ w) (launched w ++ [cmd]) (errlog w)).

(** [fprintf(stderr, ...)]. *)
Definition fprintf_stderr (text : string) (w : world) : world :=
  World (files w) (environ w) (launched w) (errlog w ++ [text]).

(** ** Constants of the source and of the PCP headers *)

Definition WORKING_DIR : string := "/var/log/pcp/vector".
Definition VECTOR_DIR : string := "/var/lib/pcp/pmdas/vector".

Abbreviation VECTOR_TASK_CPUFLAMEGRAPH := 0%Z (only parsing).
Abbreviation VECTOR_TASK_DISKLATENCYHEATMAP := 1%Z (only parsing).
Abbreviation VECTOR_TASK_JSTACKFLAMEGRAPH := 2%Z (only parsing).
Abbreviation VECTOR_TASK_PNAMECPUFLAMEGRAPH := 3%Z (only parsing).
Abbreviation VECTOR_TASK_UNINLINEDCPUFLAMEGRAPH := 4%Z (only parsing).
Abbreviation VECTOR_TASK_PAGEFAULTFLAMEGRAPH := 5%Z (only parsing).
Abbreviation VECTOR_TASK_DISKIOFLAMEGRAPH := 6%Z (only parsing).
Abbreviation VECTOR_TASK_IPCFLAMEGRAPH := 7%Z (only parsing).
Abbreviation VECTOR_TASK_CSWFLAMEGRAPH := 8%Z (only parsing).
Abbreviation VECTOR_TASK_OFFCPUFLAMEGRAPH := 9%Z (only parsing).
Abbreviation VECTOR_TASK_OFFWAKEFLAMEGRAPH := 10%Z (only parsing).
Abbreviation VECTOR_TASK_METRIC_COUNT := 11%Z (only parsing).

Definition tasknames : list string :=
  [ "cpuflamegraph";
    "disklatencyheatmap";
    "jstackflamegraph";
    "pnamecpuflamegraph";
    "uninlinedcpuflamegraph";
    "pagefaultflamegraph";
    "diskioflamegraph";
    "ipcflamegraph";
    "cswflamegraph";
    "offcpuflamegraph";
    "offwakeflamegraph" ].

(** [tasknames[item]]. *)
Definition taskname (item : Z) : string :=
  default EmptyString (tasknames !! Z.to_nat item).

(** The values the two entry points return. The numbers behind the PCP
    names are in the PCP headers; the source only tells them apart.
    [RET_0] is the plain [return 0] of a store that went through. *)
Inductive retcode : Type :=
| RET_0
| PMDA_FETCH_STATIC
| PM_ERR_PMID
| PM_ERR_INST
| PM_ERR_BADSTORE
| PM_ERR_AGAIN.

(** [PM_IN_NULL], the instance of a metric without instance domain. *)
Definition PM_IN_NULL : Z := 4294967295.

(** [sizeof (statusmsg)], [sizeof (cmd)]. *)
Definition statusmsg_size : Z := 256.
Definition cmd_size : nat := 256.

(** ** The status store *)

(** The path every status function prints into [statuspath]:
    ["%s/%s/%s.%d.status"]. *)
Definition statuspath (metric : string) (ctx : Z) : string :=
  WORKING_DIR +:+ "/" +:+ metric +:+ "/" +:+ metric +:+ "." +:+ pretty ctx
    +:+ ".status".

Definition getstatus (w : world) (metric : string) (bufsz : Z) (ctx : Z) : string :=
  let msg := "UNKNOWN" in
  match open_rdonly w (statuspath metric ctx) with
  | Some fd =>
      let '(sz, buf) := read fd bufsz in
      if 1 <? sz
      then (* buf[sz - 1] = '\0' *)
           cstr (String.substring 0 (Z.to_nat (sz - 1)) buf)
      else msg
  | None => msg
  end.

Definition hasstatus (w : world) (metric : string) (ctx : Z) : Z :=
  match open_rdonly w (statuspath metric ctx) with
  | Some _ => 1
  | None => 0
  end.

Definition rmstatus (w : world) (metric : string) (ctx : Z) : world :=
  unlink w (statuspath metric ctx).

(** ** Input validation *)

Fixpoint badinput (str : string) : Z :=
  match str with
  | EmptyString => 0
  | String c rest =>
      if (schar c <? schar "0") || (schar "9" <? schar c)
      then 1
      else badinput rest
  end.

(** ** The launch dispatcher (store path)

    [cluster], [item] are the fields of the PMID of [result->vset[0]],
    [numval] its number of values, [value] what [pmExtractValue] extracted
    from its first value as a string ([None] when the extraction fails),
    [ctx] the result of [pmdaGetContext()] and [sp] what the shell launch
    comes back with. The result is [None] when the command does not fit
    [cmd]. *)
Definition vector_store (cluster item numval : Z) (value : option string)
    (ctx : Z) (sp : spawn) (w : world) : option (retcode * world) :=
  if negb (cluster =? 0) then Some (PM_ERR_PMID, w) else
  if negb (numval =? 1) then Some (PM_ERR_PMID, w) else
  let ctxstr := pretty ctx in
  let w := setenv "PCP_CONTEXT" ctxstr w in
  match item with
  | VECTOR_TASK_CPUFLAMEGRAPH
  | VECTOR_TASK_PNAMECPUFLAMEGRAPH
  | VECTOR_TASK_UNINLINEDCPUFLAMEGRAPH
  | VECTOR_TASK_PAGEFAULTFLAMEGRAPH
  | VECTOR_TASK_DISKIOFLAMEGRAPH
  | VECTOR_TASK_IPCFLAMEGRAPH
  | VECTOR_TASK_CSWFLAMEGRAPH
  | VECTOR_TASK_OFFCPUFLAMEGRAPH
  | VECTOR_TASK_OFFWAKEFLAMEGRAPH =>
      let metricname := taskname item in
      (* fetch optional seconds argument *)
      let secs := match value with Some cp => cp | None => "" end in
      if match value with Some cp => truthy (badinput cp) | None => false end
      then Some (PM_ERR_BADSTORE, w)
      else
      (* if already busy, return try again *)
      if truthy (hasstatus w metricname ctx)
         && (let status := getstatus w metricname statusmsg_size ctx in
             negb (strcmp status "DONE" =? 0) && strstr_ne_start status "ERROR")
      then Some (PM_ERR_AGAIN, w)
      else
      cmd ← sprintf_into cmd_size
              (VECTOR_DIR +:+ "/" +:+ metricname +:+ ".sh " +:+ secs +:+ " &");
      let '(r, w) := system cmd sp w in
      let w :=
        if negb (r =? 0)
        then fprintf_stderr ("system failed: " +:+ sys_errstr sp +:+ String LF "") w
        else w in
      Some (RET_0, w)
  | VECTOR_TASK_DISKLATENCYHEATMAP =>
      if truthy (hasstatus w "disklatencyheatmap" ctx)
         && (let status := getstatus w "disklatencyheatmap" statusmsg_size ctx in
             negb (strcmp status "DONE" =? 0) && strstr_ne_start status "ERROR")
      then Some (PM_ERR_AGAIN, w)
      else
      let '(r, w) := system (VECTOR_DIR +:+ "/heatmap.sh &") sp w in
      let w :=
        if negb (r =? 0)
        then fprintf_stderr ("system failed: " +:+ sys_errstr sp +:+ String LF "") w
        else w in
      Some (RET_0, w)
  | VECTOR_TASK_JSTACKFLAMEGRAPH =>
      if truthy (hasstatus w "jstackflamegraph" ctx)
         && (let status := getstatus w "jstackflamegraph" statusmsg_size ctx in
             negb (strcmp status "DONE" =? 0) && strstr_ne_start status "ERROR")
      then Some (PM_ERR_AGAIN, w)
      else
      let '(r, w) := system (VECTOR_DIR +:+ "/jstack.sh &") sp w in
      let w :=
        if negb (r =? 0)
        then fprintf_stderr ("system failed: " +:+ sys_errstr sp +:+ String LF "") w
        else w in
      Some (RET_0, w)
  | _ => Some (PM_ERR_PMID, w)
  end.

(** ** The status resolver (fetch path)

    [cluster], [item] are the fields of the PMID of the metric, [inst] the
    instance asked for and [ctx] the result of [pmdaGetContext()]. The
    result holds the value returned, the string left in [atom->cp] ([None]
    when [atom] is not written) and the world after the call. *)
Definition vector_fetchCallBack (cluster item inst : Z) (ctx : Z) (w : world)
    : retcode * option string * world :=
  if negb (cluster =? 0) then (PM_ERR_PMID, None, w) else
  if negb (inst =? PM_IN_NULL) then (PM_ERR_INST, None, w) else
  if negb (cluster =? 0) then (PM_ERR_PMID, None, w) else
  match item with
  | VECTOR_TASK_CPUFLAMEGRAPH
  | VECTOR_TASK_PNAMECPUFLAMEGRAPH
  | VECTOR_TASK_UNINLINEDCPUFLAMEGRAPH
  | VECTOR_TASK_PAGEFAULTFLAMEGRAPH
  | VECTOR_TASK_DISKIOFLAMEGRAPH
  | VECTOR_TASK_IPCFLAMEGRAPH
  | VECTOR_TASK_CSWFLAMEGRAPH
  | VECTOR_TASK_OFFCPUFLAMEGRAPH
  | VECTOR_TASK_OFFWAKEFLAMEGRAPH =>
      let metricname := taskname item in
      if truthy (hasstatus w metricname ctx)
      then
        let cp := getstatus w metricname statusmsg_size ctx in
        if strcmp cp "DONE" =? 0
        then
          let statusmsg :=
            "DONE " +:+ metricname +:+ "/" +:+ metricname +:+ "."
              +:+ pretty ctx +:+ ".svg" in
          (PMDA_FETCH_STATIC, Some statusmsg, rmstatus w metricname ctx)
        else (PMDA_FETCH_STATIC, Some cp, w)
      else (PMDA_FETCH_STATIC, Some "IDLE", w)
  | VECTOR_TASK_DISKLATENCYHEATMAP =>
      if truthy (hasstatus w "disklatencyheatmap" ctx)
      then
        let cp := getstatus w "disklatencyheatmap" statusmsg_size ctx in
        if strcmp cp "DONE" =? 0
        then (PMDA_FETCH_STATIC, Some cp, rmstatus w "disklatencyheatmap" ctx)
        else (PMDA_FETCH_STATIC, Some cp, w)
      else (PMDA_FETCH_STATIC, Some "IDLE", w)
  | VECTOR_TASK_JSTACKFLAMEGRAPH =>
      if truthy (hasstatus w "jstackflamegraph" ctx)
      then
        let cp := getstatus w "jstackflamegraph" statusmsg_size ctx in
        if strcmp cp "DONE" =? 0
        then (PMDA_FETCH_STATIC, Some cp, rmstatus w "jstackflamegraph" ctx)
        else (PMDA_FETCH_STATIC, Some cp, w)
      else (PMDA_FETCH_STATIC, Some "IDLE", w)
  | _ => (PM_ERR_PMID, None, w)
  end.

(** [n] fetches in a row with nothing else touching the world: the strings
    they leave in [atom->cp], first fetch first, and the world at the end. *)
Fixpoint fetches (n : nat) (item : Z) (ctx : Z) (w : world)
    : list (option string) * world :=
  match n with
  | O => ([], w)
  | S k =>
      let '(_, cp, w1) := vector_fetchCallBack 0 item PM_IN_NULL ctx w in
      let '(cps, w2) := fetches k item ctx w1 in
      (cp :: cps, w2)
  end.

(** ** Words of the specification *)

(** The known task types: the PMIDs of [metrictab]. *)
Definition known_task (cluster item : Z) : Prop :=
  cluster = 0 ∧ 0 ≤ item < VECTOR_TASK_METRIC_COUNT.

(** The task types whose launch command takes the seconds argument: the
    first group of the two [switch]es. *)
Definition takes_argument (item : Z) : Prop :=
  0 ≤ item < VECTOR_TASK_METRIC_COUNT
  ∧ item ≠ VECTOR_TASK_DISKLATENCYHEATMAP
  ∧ item ≠ VECTOR_TASK_JSTACKFLAMEGRAPH.

(** The same as a test on the item. *)
Definition takes_argument_dec (item : Z) : bool :=
  (0 <=? item) && (item <? VECTOR_TASK_METRIC_COUNT)
  && negb (item =? VECTOR_TASK_DISKLATENCYHEATMAP)
  && negb (item =? VECTOR_TASK_JSTACKFLAMEGRAPH).

(** A decimal digit, as stdpp reads one. *)
Definition is_digit (c : ascii) : Prop := is_Some (Ascii.is_nat c).

(** The characters of a C string. *)
Definition chars (s : string) : list ascii := String.list_ascii_of_string s.

(** The seconds argument a store runs with. *)
Definition secs_of (value : option string) : string := default "" value.

(** The argument of a store can be launched: for a task type that takes
    the argument it passes [badinput] and the command printed from it fits
    [cmd[256]], which is to say that the name of the task type and the
    argument have at most 223 characters together; the task types without
    argument ask nothing of it. *)
Definition launchable (item : Z) (value : option string) : Prop :=
  takes_argument item →
  badinput (secs_of value) = 0
  ∧ (String.length (taskname item) + String.length (secs_of value) ≤ 223)%nat.

(** A world in which the only thing there is is one status file. *)
Definition one_file (path : string) (n : node) : world :=
  World {[ path := n ]} ∅ [] [].

Definition empty_world : world := World ∅ ∅ [] [].

(** ** The steps of the entry points

    The [switch] of each entry point has three groups of cases with the same
    steps. The definitions below name the steps; the entry points above are
    written out as the source has them and do not use these names. *)

(** The test of [badinput] on one byte. The byte is compared as a plain
    [char]; the bytes from 128 on are below ['0'] when [char] is signed and
    above ['9'] when it is not, so the test comes out the same either way
    (lemma [bad_char_signedness]). *)
Definition bad_char (c : ascii) : bool :=
  (schar c <? schar "0") || (schar "9" <? schar c).

(** The busy check: a record is there and its status is neither ["DONE"]
    nor begins with ["ERROR"]. *)
Definition busy (w : world) (metric : string) (ctx : Z) : bool :=
  truthy (hasstatus w metric ctx)
  && (let status := getstatus w metric statusmsg_size ctx in
      negb (strcmp status "DONE" =? 0) && strstr_ne_start status "ERROR").

(** The launch: [system], and a line on stderr when it fails. *)
Definition launch (cmd : string) (sp : spawn) (w : world) : world :=
  let '(r, w) := system cmd sp w in
  if negb (r =? 0)
  then fprintf_stderr ("system failed: " +:+ sys_errstr sp +:+ String LF "") w
  else w.

(** The command of a task type that takes the seconds argument, and the
    fixed commands of the two that do not. *)
Definition command_with_argument (item : Z) (secs : string) : string :=
  VECTOR_DIR +:+ "/" +:+ taskname item +:+ ".sh " +:+ secs +:+ " &".

Definition command_without_argument (item : Z) : string :=
  if item =? VECTOR_TASK_DISKLATENCYHEATMAP
  then VECTOR_DIR +:+ "/heatmap.sh &"
  else VECTOR_DIR +:+ "/jstack.sh &".

(** The message the fetch path prints over a bare ["DONE"]. *)
Definition done_message (item : Z) (ctx : Z) : string :=
  "DONE " +:+ taskname item +:+ "/" +:+ taskname item +:+ "." +:+ pretty ctx
    +:+ ".svg".

(** A message embeds a piece of text when [strstr] finds it there. *)
Definition embeds (msg part : string) : Prop := is_Some (strstr msg part).

(** ** Worlds of the examples *)

(** Session 7 and one status file. *)
Definition heatmap_DONE : world :=
  one_file (statuspath "disklatencyheatmap" 7) (File (line "DONE")).

Definition cpu_DONE : world :=
  one_file (statuspath "cpuflamegraph" 7) (File (line "DONE")).

Definition heatmap_DONE_argument : world :=
  one_file (statuspath "disklatencyheatmap" 7) (File (line "DONE out.svg")).


Definition cpu_progress : world :=
  one_file (statuspath "cpuflamegraph" 7) (File (line "profiling 50%")).

Definition cpu_faulty : world :=
  one_file (statuspath "cpuflamegraph" 7) Faulty.

(** A line of 300 characters, more than [statusmsg] holds. *)
Definition long_text : string :=
  foldr String.append "" (replicate 30 "0123456789").

(** Arguments of 210 and of 250 digits: with the 13 characters of
    ["cpuflamegraph"] the first is the longest that fits [cmd], the second
    does not fit. *)
Definition digits_210 : string :=
  foldr String.append "" (replicate 21 "0123456789").


(** ** The container attribute

    [container_name] is the static buffer of [CONTAINER_NAME_MAX] bytes the
    agent keeps the name of the target container in; it is a [string] of
    that many bytes here and is threaded through the calls beside the
    world. *)

Definition CONTAINER_NAME_MAX : nat := 256.

(** [n] NUL bytes. *)
Fixpoint nuls (n : nat) : string :=
  match n with
  | O => EmptyString
  | S k => String NUL (nuls k)
  end.

(** The buffer as the loader leaves it (all bytes 0), which is also what
    [strcpy(container_name, "")] of [vector_init] leaves of it when nothing
    was written before. *)
Definition container_name_init : string := nuls CONTAINER_NAME_MAX.

(** [strncpy(dest, src, n)] on the bytes of [dest]: the first [n] bytes
    become the bytes of the C string [src], cut at [n] or filled up with NUL
    to [n]; the bytes after them stay. [n] is a [size_t]: a negative [int]
    is a huge count. Writing past the end of [dest] is undefined ([None]). *)
Definition strncpy (dest src : string) (n : Z) : option string :=
  if (n <? 0) || (Z.of_nat (String.length dest) <? n) then None
  else
    let k := Z.to_nat n in
    Some (String.substring 0 k (src +:+ nuls k)
          +:+ String.substring k (String.length dest - k) dest).

(** The C string a buffer holds, when there is a NUL in the buffer to end
    it; reading on past the buffer is undefined ([None]). *)
Fixpoint terminated (buf : string) : option string :=
  match buf with
  | EmptyString => None
  | String c rest =>
      if Ascii.eqb c NUL then Some EmptyString
      else String c <$> terminated rest
  end.

(** [vector_attribute]: [attr], [value], [len] are the attribute the
    framework hands over; the result holds the value returned, the buffer
    and the world after the call. [PCP_ATTR_CONTAINER] is a number of the
    PCP headers and is taken as it comes. *)
Definition vector_attribute (PCP_ATTR_CONTAINER : Z) (ctx attr : Z)
    (value : string) (len : Z) (container_name : string) (w : world)
    : option (Z * string * world) :=
  if attr =? PCP_ATTR_CONTAINER
  then
    container_name ← strncpy container_name value len;
    name ← terminated container_name;
    Some (0, container_name, setenv "PCP_CONTAINER_NAME" name w)
  else Some (0, container_name, w).

(** ** More words for the properties *)

(** The range of a C [int]. *)
Definition is_int (z : Z) : Prop := -2147483648 ≤ z ≤ 2147483647.

(** The characters the shell takes as they are: small letters, digits,
    the slash, the dot and the blank. *)
Definition plain_char (c : ascii) : bool :=
  let n := uchar c in
  ((97 <=? n) && (n <=? 122)) || ((48 <=? n) && (n <=? 57))
  || (n =? 47) || (n =? 46) || (n =? 32).

(** The world of another run: anything goes but one key's status file,
    which is the same in both. *)
Definition same_record (metric : string) (ctx : Z) (w1 w2 : world) : Prop :=
  files w1 !! statuspath metric ctx = files w2 !! statuspath metric ctx.

(** * Properties *)

(** ** C strings *)

Section CStringFacts.

Implicit Types (s t buf : string) (c : ascii).

Lemma append_String c s t : String c s +:+ t = String c (s +:+ t).
Proof. reflexivity. Qed.

Lemma append_assoc s t u : (s +:+ t) +:+ u = s +:+ t +:+ u.
Proof. induction s as [|c s IH]; [done|]. rewrite !append_String. by rewrite IH. Qed.

Lemma length_append s t :
  String.length (s +:+ t) = (String.length s + String.length t)%nat.
Proof. induction s as [|c s IH]; [done|]. rewrite append_String. simpl. by rewrite IH. Qed.

Lemma length_line s : String.length (line s) = S (String.length s).
Proof. unfold line. rewrite length_append. simpl. lia. Qed.

Lemma substring_0_append s t :
  String.substring 0 (String.length s) (s +:+ t) = s.
Proof.
  induction s as [|c s IH]; [by destruct t|].
  rewrite append_String. simpl. by rewrite IH.
Qed.

(** Taking a prefix of a prefix. *)
Lemma substring_0_substring_0 (k n : nat) s :
  (k ≤ n)%nat →
  String.substring 0 k (String.substring 0 n s) = String.substring 0 k s.
Proof.
  revert n s. induction k as [|k IH]; intros n s Hkn.
  - by destruct (String.substring 0 n s), s.
  - destruct n as [|n]; [lia|]. destruct s as [|c s]; [done|].
    simpl. rewrite IH; [done|lia].
Qed.

Lemma uchar_inj c1 c2 : uchar c1 = uchar c2 → c1 = c2.
Proof.
  unfold uchar. intros H%(inj Z.of_N).
  by rewrite <-(ascii_N_embedding c1), <-(ascii_N_embedding c2), H.
Qed.

Lemma uchar_NUL c : uchar c = 0 ↔ c = NUL.
Proof.
  split; [|by intros ->]. intros H. by apply uchar_inj.
Qed.

Lemma cstr_idemp buf : cstr (cstr buf) = cstr buf.
Proof.
  induction buf as [|c buf IH]; [done|]. simpl.
  destruct (Ascii.eqb c NUL) eqn:E; [done|]. simpl. by rewrite E, IH.
Qed.

(** A [string] that is a C string as it stands holds no NUL. *)
Lemma cstr_fixed_cons c s :
  cstr (String c s) = String c s ↔ c ≠ NUL ∧ cstr s = s.
Proof.
  simpl. destruct (Ascii.eqb_spec c NUL) as [->|Hc].
  - split; [done|]. by intros [? _].
  - split; [intros [= ?]; done|]. by intros [_ ->].
Qed.

(** On C strings [strcmp] is 0 exactly on equal strings. *)
Lemma strcmp_0_iff s t : cstr s = s → cstr t = t → strcmp s t = 0 ↔ s = t.
Proof.
  revert t. induction s as [|c s IH]; intros [|d t] Hs Ht; simpl.
  - done.
  - apply cstr_fixed_cons in Ht as [Hd _]. split; [|done].
    intros H. destruct Hd. apply uchar_NUL. lia.
  - apply cstr_fixed_cons in Hs as [Hc _]. split; [|done].
    intros H. destruct Hc. by apply uchar_NUL.
  - apply cstr_fixed_cons in Hs as [Hc Hs].
    apply cstr_fixed_cons in Ht as [Hd Ht].
    destruct (Z.eqb_spec (uchar c) (uchar d)) as [E|E].
    + apply uchar_inj in E as ->. rewrite (IH t Hs Ht).
      split; [by intros ->|by intros [= ->]].
    + split; [lia|]. by intros [= -> _].
Qed.

Lemma strcmp_refl s : strcmp s s = 0.
Proof. induction s as [|c s IH]; [done|]. simpl. by rewrite Z.eqb_refl. Qed.

(** [strstr(s, needle) == s] says that [s] begins with [needle]. *)
Lemma strstr_ne_start_prefix s needle :
  strstr_ne_start s needle = negb (String.prefix needle s).
Proof.
  unfold strstr_ne_start. destruct s as [|c s].
  - by destruct needle.
  - unfold strstr; fold strstr.
    destruct (String.prefix needle (String c s)); [done|].
    by destruct (strstr s needle).
Qed.

Lemma strstr_unfold s needle :
  strstr s needle =
    if String.prefix needle s then Some 0%nat
    else match s with
         | EmptyString => None
         | String _ rest => S <$> strstr rest needle
         end.
Proof. by destruct s. Qed.

Lemma prefix_append s t : String.prefix s (s +:+ t) = true.
Proof. apply String.prefix_correct, substring_0_append. Qed.

End CStringFacts.

(** ** Input validation *)

Lemma bad_char_signedness c :
  bad_char c = (uchar c <? uchar "0") || (uchar "9" <? uchar c).
Proof. by destruct c as [[] [] [] [] [] [] [] []]. Qed.

Lemma bad_char_is_nat c : bad_char c = false ↔ is_digit c.
Proof.
  unfold is_digit.
  destruct c as [[] [] [] [] [] [] [] []]; vm_compute;
    (split; [intros [=]; by eexists | intros [? [=]]; done])
    || (split; [intros [=] | intros [? [=]]]).
Qed.

Lemma badinput_cons c s :
  badinput (String c s) = if bad_char c then 1 else badinput s.
Proof. reflexivity. Qed.

Lemma badinput_range s : badinput s = 0 ∨ badinput s = 1.
Proof.
  induction s as [|c s IH]; [by left|].
  rewrite badinput_cons. destruct (bad_char c); [by right|done].
Qed.

(** [badinput] accepts exactly the strings made of decimal digits. *)
Lemma badinput_0_iff s : badinput s = 0 ↔ Forall is_digit (chars s).
Proof.
  induction s as [|c s IH]; [by split; [constructor|]|].
  rewrite badinput_cons. unfold chars in *. simpl.
  rewrite Forall_cons, <-IH, <-bad_char_is_nat.
  destruct (bad_char c); [|tauto]. split; [done|]. by intros [[=] _].
Qed.

Lemma badinput_1_iff s :
  badinput s = 1 ↔ ∃ c, c ∈ chars s ∧ ¬ is_digit c.
Proof.
  induction s as [|c s IH].
  - split; [done|]. intros (c & Hc & _). by apply elem_of_nil in Hc.
  - rewrite badinput_cons. unfold chars in *. simpl.
    destruct (bad_char c) eqn:E.
    + split; [|done]. intros _. exists c. split; [left|].
      intros Hd%bad_char_is_nat. congruence.
    + rewrite IH. split.
      * intros (d & Hd & Hn). exists d. split; [by right|done].
      * intros (d & Hd & Hn). apply elem_of_cons in Hd as [->|Hd]; [|by exists d].
        destruct Hn. by apply bad_char_is_nat.
Qed.

Lemma badinput_truthy s : truthy (badinput s) = true ↔ badinput s = 1.
Proof. by destruct (badinput_range s) as [-> | ->]. Qed.

(** ** The status store *)

Section StatusStore.

Context (w : world) (metric : string) (ctx : Z).

Lemma hasstatus_Some n :
  files w !! statuspath metric ctx = Some n → hasstatus w metric ctx = 1.
Proof. unfold hasstatus, open_rdonly. by intros ->. Qed.

Lemma hasstatus_None :
  files w !! statuspath metric ctx = None → hasstatus w metric ctx = 0.
Proof. unfold hasstatus, open_rdonly. by intros ->. Qed.

Lemma hasstatus_1_iff :
  hasstatus w metric ctx = 1 ↔ is_Some (files w !! statuspath metric ctx).
Proof.
  unfold hasstatus, open_rdonly.
  destruct (files w !! statuspath metric ctx); split; done.
Qed.

Lemma getstatus_absent bufsz :
  files w !! statuspath metric ctx = None →
  getstatus w metric bufsz ctx = "UNKNOWN".
Proof. unfold getstatus, open_rdonly. by intros ->. Qed.

Lemma getstatus_faulty bufsz :
  files w !! statuspath metric ctx = Some Faulty →
  getstatus w metric bufsz ctx = "UNKNOWN".
Proof. unfold getstatus, open_rdonly. by intros ->. Qed.

(** The record holds [data]: the status is cut from the bytes that were
    read, without the last of them. *)
Lemma getstatus_file bufsz data :
  files w !! statuspath metric ctx = Some (File data) →
  getstatus w metric bufsz ctx =
    let sz := Z.min (Z.of_nat (String.length data)) bufsz in
    if 1 <? sz
    then cstr (String.substring 0 (Z.to_nat (sz - 1)) data)
    else "UNKNOWN".
Proof.
  unfold getstatus, open_rdonly. intros ->. simpl.
  destruct (1 <? _) eqn:E; [|done].
  rewrite substring_0_substring_0; [done|lia].
Qed.

Lemma getstatus_short bufsz data :
  files w !! statuspath metric ctx = Some (File data) →
  (String.length data ≤ 1)%nat →
  getstatus w metric bufsz ctx = "UNKNOWN".
Proof.
  intros Hf Hlen. rewrite (getstatus_file _ _ Hf). simpl.
  destruct (Z.ltb_spec 1 (Z.min (Z.of_nat (String.length data)) bufsz)); [lia|done].
Qed.

(** The record holds one status line that fits the buffer: the status is
    the line without its newline. *)
Lemma getstatus_line bufsz s :
  files w !! statuspath metric ctx = Some (File (line s)) →
  cstr s = s → s ≠ "" →
  Z.of_nat (String.length (line s)) ≤ bufsz →
  getstatus w metric bufsz ctx = s.
Proof.
  intros Hf Hs Hne Hlen. rewrite (getstatus_file _ _ Hf). simpl.
  rewrite Z.min_l by done. rewrite length_line in *.
  assert (0 < String.length s)%nat by (destruct s; [done|simpl; lia]).
  destruct (Z.ltb_spec 1 (Z.of_nat (S (String.length s)))); [|lia].
  replace (Z.to_nat (Z.of_nat (S (String.length s)) - 1)) with (String.length s) by lia.
  unfold line. by rewrite substring_0_append.
Qed.

(** What [getstatus] returns is a C string. *)
Lemma getstatus_cstr bufsz :
  cstr (getstatus w metric bufsz ctx) = getstatus w metric bufsz ctx.
Proof.
  unfold getstatus. destruct (open_rdonly _ _) as [n|]; [|done].
  destruct (read n bufsz) as [sz buf]. destruct (1 <? sz); [|done].
  apply cstr_idemp.
Qed.

(** A status other than the sentinel was read from a record with bytes. *)
Lemma getstatus_known bufsz :
  getstatus w metric bufsz ctx ≠ "UNKNOWN" →
  ∃ data, files w !! statuspath metric ctx = Some (File data).
Proof.
  unfold getstatus, open_rdonly.
  destruct (files w !! statuspath metric ctx) as [[data|]|]; [by eexists|done..].
Qed.

Lemma files_rmstatus :
  files (rmstatus w metric ctx) !! statuspath metric ctx = None.
Proof. unfold rmstatus, unlink. simpl. apply lookup_delete_eq. Qed.

Lemma hasstatus_rmstatus : hasstatus (rmstatus w metric ctx) metric ctx = 0.
Proof. unfold hasstatus, open_rdonly. by rewrite files_rmstatus. Qed.

End StatusStore.

(** ** The two entry points on the known task types

    The lemmas of this part rewrite an entry point on a known task type into
    the steps named by [busy], [launch] and the two commands. *)

(** Splitting the range of the known items into its eleven values. *)
Ltac each_item H :=
  match type of H with
  | 0 ≤ ?item < 11 =>
      let E := fresh "E" in
      assert (item = 0 ∨ item = 1 ∨ item = 2 ∨ item = 3 ∨ item = 4 ∨ item = 5
              ∨ item = 6 ∨ item = 7 ∨ item = 8 ∨ item = 9 ∨ item = 10) as E by lia;
      clear H; repeat (destruct E as [E|E]); subst item
  end.

(** An item outside the range falls through to [default:]. *)
Ltac other_item item p :=
  destruct item as [|p|p];
  [lia| |reflexivity];
  do 4 (try (destruct p as [p|p|]; try lia; try reflexivity)).

Lemma busy_setenv name value w metric ctx :
  busy (setenv name value w) metric ctx = busy w metric ctx.
Proof. reflexivity. Qed.

Lemma vector_store_with_argument item value ctx sp w :
  takes_argument item →
  vector_store 0 item 1 value ctx sp w =
    let w' := setenv "PCP_CONTEXT" (pretty ctx) w in
    if truthy (badinput (secs_of value)) then Some (PM_ERR_BADSTORE, w')
    else if busy w' (taskname item) ctx then Some (PM_ERR_AGAIN, w')
    else cmd ← sprintf_into cmd_size (command_with_argument item (secs_of value));
         Some (RET_0, launch cmd sp w').
Proof.
  intros (Hitem & Hheat & Hjstack).
  each_item Hitem; try done; by destruct value.
Qed.

Lemma vector_store_without_argument item value ctx sp w :
  item = VECTOR_TASK_DISKLATENCYHEATMAP ∨ item = VECTOR_TASK_JSTACKFLAMEGRAPH →
  vector_store 0 item 1 value ctx sp w =
    let w' := setenv "PCP_CONTEXT" (pretty ctx) w in
    if busy w' (taskname item) ctx then Some (PM_ERR_AGAIN, w')
    else Some (RET_0, launch (command_without_argument item) sp w').
Proof. by intros [-> | ->]. Qed.

Lemma vector_store_other cluster item numval value ctx sp w :
  ¬ known_task cluster item →
  fst <$> vector_store cluster item numval value ctx sp w = Some PM_ERR_PMID.
Proof.
  unfold known_task, vector_store. intros Hunknown.
  destruct (Z.eqb_spec cluster 0) as [->|]; [|done].
  destruct (Z.eqb_spec numval 1) as [->|]; [|done].
  assert (¬ 0 ≤ item < 11) by tauto. simpl negb. cbv iota.
  other_item item p.
Qed.

Lemma vector_fetchCallBack_known item ctx w :
  0 ≤ item < VECTOR_TASK_METRIC_COUNT →
  vector_fetchCallBack 0 item PM_IN_NULL ctx w =
    if truthy (hasstatus w (taskname item) ctx)
    then
      let cp := getstatus w (taskname item) statusmsg_size ctx in
      if strcmp cp "DONE" =? 0
      then (PMDA_FETCH_STATIC,
            Some (if takes_argument_dec item then done_message item ctx else cp),
            rmstatus w (taskname item) ctx)
      else (PMDA_FETCH_STATIC, Some cp, w)
    else (PMDA_FETCH_STATIC, Some "IDLE", w).
Proof. intros Hitem. each_item Hitem; reflexivity. Qed.

Lemma vector_fetchCallBack_other cluster item ctx w :
  ¬ known_task cluster item →
  vector_fetchCallBack cluster item PM_IN_NULL ctx w = (PM_ERR_PMID, None, w).
Proof.
  unfold known_task, vector_fetchCallBack. intros Hunknown.
  destruct (Z.eqb_spec cluster 0) as [->|]; [|done].
  assert (¬ 0 ≤ item < 11) by tauto. simpl negb. cbv iota.
  other_item item p.
Qed.

(** ** Steps shared by the properties *)

Section Steps.

Context (item : Z) (ctx : Z) (w : world).
Hypothesis known : 0 ≤ item < VECTOR_TASK_METRIC_COUNT.

(** No record: the fetch answers ["IDLE"] and changes nothing. *)
Lemma fetch_idle :
  files w !! statuspath (taskname item) ctx = None →
  vector_fetchCallBack 0 item PM_IN_NULL ctx w = (PMDA_FETCH_STATIC, Some "IDLE", w).
Proof.
  intros Hnone. rewrite vector_fetchCallBack_known by done.
  by rewrite (hasstatus_None _ _ _ Hnone).
Qed.

(** A record whose status is not ["DONE"]: the fetch answers the status and
    changes nothing. *)
Lemma fetch_not_DONE :
  hasstatus w (taskname item) ctx = 1 →
  getstatus w (taskname item) statusmsg_size ctx ≠ "DONE" →
  vector_fetchCallBack 0 item PM_IN_NULL ctx w =
    (PMDA_FETCH_STATIC, Some (getstatus w (taskname item) statusmsg_size ctx), w).
Proof.
  intros Hhas Hstatus. rewrite vector_fetchCallBack_known by done.
  rewrite Hhas. simpl.
  destruct (Z.eqb_spec (strcmp (getstatus w (taskname item) statusmsg_size ctx) "DONE") 0)
    as [E|E]; [|done].
  apply strcmp_0_iff in E; [done|apply getstatus_cstr|done].
Qed.

(** A record whose status is ["DONE"]: the fetch removes it. *)
Lemma fetch_DONE :
  getstatus w (taskname item) statusmsg_size ctx = "DONE" →
  vector_fetchCallBack 0 item PM_IN_NULL ctx w =
    (PMDA_FETCH_STATIC,
     Some (if takes_argument_dec item then done_message item ctx else "DONE"),
     rmstatus w (taskname item) ctx).
Proof.
  intros Hstatus. rewrite vector_fetchCallBack_known by done.
  destruct (getstatus_known w (taskname item) ctx statusmsg_size) as [data Hfile];
    [by rewrite Hstatus|].
  by rewrite (hasstatus_Some _ _ _ _ Hfile), Hstatus.
Qed.

(** A fetch that changes nothing can be repeated at will. *)
Lemma fetches_unchanged r cp n :
  vector_fetchCallBack 0 item PM_IN_NULL ctx w = (r, cp, w) →
  fetches n item ctx w = (replicate n cp, w).
Proof.
  intros Hfetch. induction n as [|n IH]; [done|].
  simpl. by rewrite Hfetch, IH.
Qed.

(** The busy check in terms of the status. *)
Lemma busy_true :
  hasstatus w (taskname item) ctx = 1 →
  getstatus w (taskname item) statusmsg_size ctx ≠ "DONE" →
  String.prefix "ERROR" (getstatus w (taskname item) statusmsg_size ctx) = false →
  busy w (taskname item) ctx = true.
Proof.
  intros Hhas Hdone Herror. unfold busy. rewrite Hhas. simpl.
  rewrite strstr_ne_start_prefix, Herror.
  destruct (Z.eqb_spec (strcmp (getstatus w (taskname item) statusmsg_size ctx) "DONE") 0)
    as [E|E]; [|done].
  apply strcmp_0_iff in E; [done|apply getstatus_cstr|done].
Qed.

Lemma busy_false_absent :
  files w !! statuspath (taskname item) ctx = None →
  busy w (taskname item) ctx = false.
Proof. intros Hnone. unfold busy. by rewrite (hasstatus_None _ _ _ Hnone). Qed.

Lemma busy_false_DONE :
  getstatus w (taskname item) statusmsg_size ctx = "DONE" →
  busy w (taskname item) ctx = false.
Proof. intros Hdone. unfold busy. rewrite Hdone. simpl. apply andb_false_r. Qed.

Lemma busy_false_ERROR :
  String.prefix "ERROR" (getstatus w (taskname item) statusmsg_size ctx) = true →
  busy w (taskname item) ctx = false.
Proof.
  intros Herror. unfold busy. simpl.
  rewrite strstr_ne_start_prefix, Herror. simpl. by rewrite !andb_false_r.
Qed.

(** The command of a task type with an argument of at most 201 characters
    fits [cmd]. *)
Lemma command_fits secs :
  takes_argument item →
  (String.length secs ≤ 201)%nat →
  sprintf_into cmd_size (command_with_argument item secs)
  = Some (command_with_argument item secs).
Proof.
  intros (_ & Hheat & Hjstack) Hlen. unfold sprintf_into, cmd_size.
  assert (String.length (command_with_argument item secs) < 256)%nat as Hfit.
  { unfold command_with_argument. rewrite !length_append.
    clear w. each_item known; try done; simpl; lia. }
  by destruct (Nat.ltb_spec (String.length (command_with_argument item secs)) 256); [|lia].
Qed.

(** A store that passes validation and the busy check launches the worker
    and returns 0, whatever the launch comes back with. *)
Lemma store_launches value sp :
  badinput (secs_of value) = 0 →
  (String.length (secs_of value) ≤ 201)%nat →
  busy w (taskname item) ctx = false →
  vector_store 0 item 1 value ctx sp w =
    Some (RET_0,
          launch (if takes_argument_dec item
                  then command_with_argument item (secs_of value)
                  else command_without_argument item)
                 sp (setenv "PCP_CONTEXT" (pretty ctx) w)).
Proof.
  intros Hvalid Hlen Hidle.
  destruct (takes_argument_dec item) eqn:Hdec.
  - assert (takes_argument item) as Harg by (unfold takes_argument, takes_argument_dec in *; lia).
    rewrite vector_store_with_argument by done. simpl.
    rewrite Hvalid, busy_setenv, Hidle. simpl. by rewrite command_fits.
  - rewrite vector_store_without_argument
      by (unfold takes_argument_dec in *; lia).
    simpl. by rewrite busy_setenv, Hidle.
Qed.

(** A store that passes validation and finds the key busy returns
    [PM_ERR_AGAIN] and launches nothing. *)
Lemma store_busy value sp :
  badinput (secs_of value) = 0 →
  busy w (taskname item) ctx = true →
  vector_store 0 item 1 value ctx sp w =
    Some (PM_ERR_AGAIN, setenv "PCP_CONTEXT" (pretty ctx) w).
Proof.
  intros Hvalid Hbusy.
  destruct (takes_argument_dec item) eqn:Hdec.
  - assert (takes_argument item) as Harg by (unfold takes_argument, takes_argument_dec in *; lia).
    rewrite vector_store_with_argument by done. simpl.
    by rewrite Hvalid, busy_setenv, Hbusy.
  - rewrite vector_store_without_argument
      by (unfold takes_argument_dec in *; lia).
    simpl. by rewrite busy_setenv, Hbusy.
Qed.

(** The command fits [cmd] when name and argument have at most 223
    characters together. *)
Lemma command_fits_223 secs :
  (String.length (taskname item) + String.length secs ≤ 223)%nat →
  sprintf_into cmd_size (command_with_argument item secs)
  = Some (command_with_argument item secs).
Proof.
  intros Hlen. unfold sprintf_into, cmd_size.
  assert (String.length (command_with_argument item secs) < 256)%nat as Hfit.
  { unfold command_with_argument, VECTOR_DIR. rewrite !length_append. simpl. lia. }
  by destruct (Nat.ltb_spec (String.length (command_with_argument item secs)) 256); [|lia].
Qed.

(** A store whose argument can be launched and that passes the busy check
    launches the worker and returns 0, whatever the launch comes back
    with. *)
Lemma store_launches_launchable value sp :
  launchable item value →
  busy w (taskname item) ctx = false →
  vector_store 0 item 1 value ctx sp w =
    Some (RET_0,
          launch (if takes_argument_dec item
                  then command_with_argument item (secs_of value)
                  else command_without_argument item)
                 sp (setenv "PCP_CONTEXT" (pretty ctx) w)).
Proof.
  intros Hvalue Hidle.
  destruct (takes_argument_dec item) eqn:Hdec.
  - assert (takes_argument item) as Harg by (unfold takes_argument, takes_argument_dec in *; lia).
    destruct (Hvalue Harg) as [Hvalid Hlen].
    rewrite vector_store_with_argument by done. simpl.
    rewrite Hvalid, busy_setenv, Hidle. simpl. by rewrite command_fits_223.
  - rewrite vector_store_without_argument
      by (unfold takes_argument_dec in *; lia).
    simpl. by rewrite busy_setenv, Hidle.
Qed.

End Steps.

(** What a launch leaves behind. *)
Lemma launch_effect cmd sp w :
  files (launch cmd sp w) = files w
  ∧ environ (launch cmd sp w) = environ w
  ∧ launched (launch cmd sp w) = launched w ++ [cmd]
  ∧ errlog (launch cmd sp w) =
      errlog w ++ (if sys_status sp =? 0 then []
                   else ["system failed: " +:+ sys_errstr sp +:+ String LF ""]).
Proof.
  unfold launch, system. destruct (sys_status sp =? 0); simpl.
  - by rewrite app_nil_r.
  - done.
Qed.

(** * The protocol *)

Lemma embeds_append pre part post : embeds (pre +:+ part +:+ post) part.
Proof.
  unfold embeds. induction pre as [|c pre IH].
  - change ("" +:+ part +:+ post) with (part +:+ post).
    rewrite strstr_unfold, prefix_append. by eexists.
  - rewrite append_String, strstr_unfold.
    destruct (String.prefix part _); [by eexists|].
    destruct IH as [k ->]. by eexists.
Qed.

Lemma done_message_embeds item ctx :
  embeds (done_message item ctx) (taskname item)
  ∧ embeds (done_message item ctx) (pretty ctx).
Proof.
  unfold done_message. split.
  - apply embeds_append.
  - rewrite <-4!append_assoc. apply embeds_append.
Qed.

(** ** One-shot delivery of DONE *)

(** C1, as stated, fails: on the record ["DONE"] of disklatencyheatmap the
    fetch answers the bare ["DONE"], which holds neither the name of the task
    type nor the session identifier. *)
Lemma fetch_DONE_heatmap_is_bare :
  getstatus heatmap_DONE (taskname VECTOR_TASK_DISKLATENCYHEATMAP) statusmsg_size 7
    = "DONE"
  ∧ vector_fetchCallBack 0 VECTOR_TASK_DISKLATENCYHEATMAP PM_IN_NULL 7 heatmap_DONE
    = (PMDA_FETCH_STATIC, Some "DONE", empty_world)
  ∧ ¬ embeds "DONE" (taskname VECTOR_TASK_DISKLATENCYHEATMAP)
  ∧ ¬ embeds "DONE" (pretty 7).
Proof.
  split; [reflexivity|]. split; [by vm_compute|].
  split; intros [k Hk]; vm_compute in Hk; discriminate.
Qed.

(** C1 (amended): for every known task type and session, if the status of
    the record is exactly ["DONE"], a fetch deletes the record, so that the
    next fetch on the key answers ["IDLE"]; for the task types that take the
    seconds argument (all but disklatencyheatmap and jstackflamegraph) it
    answers the message ["DONE <name>/<name>.<session>.svg"], which embeds
    the task type and the session identifier, and for disklatencyheatmap and
    jstackflamegraph it answers the bare ["DONE"]. *)
Theorem fetch_DONE_once item ctx w :
  0 ≤ item < VECTOR_TASK_METRIC_COUNT →
  getstatus w (taskname item) statusmsg_size ctx = "DONE" →
  ∃ msg w',
    vector_fetchCallBack 0 item PM_IN_NULL ctx w = (PMDA_FETCH_STATIC, Some msg, w')
    ∧ (takes_argument item →
       msg = done_message item ctx
       ∧ embeds msg (taskname item) ∧ embeds msg (pretty ctx))
    ∧ (¬ takes_argument item → msg = "DONE")
    ∧ files w' = delete (statuspath (taskname item) ctx) (files w)
    ∧ hasstatus w' (taskname item) ctx = 0
    ∧ vector_fetchCallBack 0 item PM_IN_NULL ctx w' = (PMDA_FETCH_STATIC, Some "IDLE", w').
Proof.
  intros Hitem Hstatus. eexists _, _. split; [by apply fetch_DONE|].
  split; [|split; [|split; [done|split]]].
  - intros Harg.
    assert (takes_argument_dec item = true) as ->
      by (unfold takes_argument, takes_argument_dec in *; lia).
    split; [done|]. apply done_message_embeds.
  - intros Hnoarg.
    assert (takes_argument_dec item = false) as ->; [|done].
    unfold takes_argument, takes_argument_dec in *. lia.
  - apply hasstatus_rmstatus.
  - apply fetch_idle; [done|]. apply files_rmstatus.
Qed.

Lemma fetch_DONE_once_witness :
  ∃ msg w',
    vector_fetchCallBack 0 VECTOR_TASK_CPUFLAMEGRAPH PM_IN_NULL 7 cpu_DONE
      = (PMDA_FETCH_STATIC, Some msg, w')
    ∧ (takes_argument VECTOR_TASK_CPUFLAMEGRAPH →
       msg = done_message VECTOR_TASK_CPUFLAMEGRAPH 7
       ∧ embeds msg (taskname VECTOR_TASK_CPUFLAMEGRAPH) ∧ embeds msg (pretty 7))
    ∧ (¬ takes_argument VECTOR_TASK_CPUFLAMEGRAPH → msg = "DONE")
    ∧ files w' = delete (statuspath (taskname VECTOR_TASK_CPUFLAMEGRAPH) 7) (files cpu_DONE)
    ∧ hasstatus w' (taskname VECTOR_TASK_CPUFLAMEGRAPH) 7 = 0
    ∧ vector_fetchCallBack 0 VECTOR_TASK_CPUFLAMEGRAPH PM_IN_NULL 7 w'
      = (PMDA_FETCH_STATIC, Some "IDLE", w').
Proof.
  apply (fetch_DONE_once VECTOR_TASK_CPUFLAMEGRAPH 7 cpu_DONE); [lia|reflexivity].
Defined.

(** C2: the code does not do what the claim and the header comment of the
    source ("DONE[ arg]": request completed; DONE will only be returned
    once) say. On the record ["DONE out.svg"] the fetch answers the content
    and leaves the record where it is, so every later fetch delivers the
    same done result again. *)
Theorem fetch_DONE_argument_not_consumed :
  getstatus heatmap_DONE_argument (taskname VECTOR_TASK_DISKLATENCYHEATMAP)
    statusmsg_size 7 = "DONE out.svg"
  ∧ vector_fetchCallBack 0 VECTOR_TASK_DISKLATENCYHEATMAP PM_IN_NULL 7
      heatmap_DONE_argument
    = (PMDA_FETCH_STATIC, Some "DONE out.svg", heatmap_DONE_argument)
  ∧ hasstatus heatmap_DONE_argument (taskname VECTOR_TASK_DISKLATENCYHEATMAP) 7 = 1
  ∧ fetches 3 VECTOR_TASK_DISKLATENCYHEATMAP 7 heatmap_DONE_argument
    = ([Some "DONE out.svg"; Some "DONE out.svg"; Some "DONE out.svg"],
       heatmap_DONE_argument).
Proof. repeat split; reflexivity. Qed.

(** The same for every known task type: a status that begins with ["DONE "]
    and goes on is answered and kept. *)
Lemma fetch_DONE_argument_kept item ctx w arg :
  0 ≤ item < VECTOR_TASK_METRIC_COUNT →
  getstatus w (taskname item) statusmsg_size ctx = "DONE " +:+ arg →
  vector_fetchCallBack 0 item PM_IN_NULL ctx w
  = (PMDA_FETCH_STATIC, Some ("DONE " +:+ arg), w).
Proof.
  intros Hitem Hstatus.
  destruct (getstatus_known w (taskname item) ctx statusmsg_size) as [data Hfile];
    [by rewrite Hstatus|].
  rewrite fetch_not_DONE, Hstatus; [done..| |by rewrite Hstatus].
  by apply (hasstatus_Some _ _ _ _ Hfile).
Qed.

(** ** The busy check *)

(** When a store of a known task type with an argument that passes
    validation finds a record, it is turned away with [PM_ERR_AGAIN] exactly
    when the status is neither ["DONE"] nor begins with ["ERROR"]. *)
Lemma store_AGAIN_iff item value ctx sp w :
  0 ≤ item < VECTOR_TASK_METRIC_COUNT →
  hasstatus w (taskname item) ctx = 1 →
  badinput (secs_of value) = 0 →
  (String.length (secs_of value) ≤ 201)%nat →
  let status := getstatus w (taskname item) statusmsg_size ctx in
  fst <$> vector_store 0 item 1 value ctx sp w = Some PM_ERR_AGAIN
  ↔ status ≠ "DONE" ∧ String.prefix "ERROR" status = false.
Proof.
  intros Hitem Hhas Hvalid Hlen status. split.
  - intros Hagain. split.
    + intros Hdone. rewrite store_launches in Hagain; [done..|].
      by apply busy_false_DONE.
    + destruct (String.prefix "ERROR" status) eqn:Herror; [|done].
      rewrite store_launches in Hagain; [done..|].
      by apply busy_false_ERROR.
  - intros [Hdone Herror]. rewrite store_busy; [done..|].
    by apply busy_true.
Qed.

(** C3: the code does not do what the claim and the header comment of the
    source say ("DONE[ arg]": request completed; a task must finish with
    either "DONE" or "ERROR" with optional argument). The busy check compares
    the whole status with ["DONE"], so on the terminal record
    ["DONE out.svg"] a store is turned away with [PM_ERR_AGAIN] and nothing
    is launched. *)
Theorem store_DONE_argument_is_busy :
  hasstatus heatmap_DONE_argument (taskname VECTOR_TASK_DISKLATENCYHEATMAP) 7 = 1
  ∧ getstatus heatmap_DONE_argument (taskname VECTOR_TASK_DISKLATENCYHEATMAP)
      statusmsg_size 7 = "DONE out.svg"
  ∧ vector_store 0 VECTOR_TASK_DISKLATENCYHEATMAP 1 None 7 (Spawn 0 "")
      heatmap_DONE_argument
    = Some (PM_ERR_AGAIN, setenv "PCP_CONTEXT" "7" heatmap_DONE_argument)
  ∧ vector_store 0 VECTOR_TASK_CPUFLAMEGRAPH 1 (Some "30") 7 (Spawn 0 "")
      (one_file (statuspath "cpuflamegraph" 7) (File (line "DONE out.svg")))
    = Some (PM_ERR_AGAIN,
            setenv "PCP_CONTEXT" "7"
              (one_file (statuspath "cpuflamegraph" 7) (File (line "DONE out.svg")))).
Proof. repeat split; reflexivity. Qed.

(** ** Durable errors *)




(** ** Validation of the argument *)

(** C5, as stated, fails: disklatencyheatmap is a known task type, the
    argument ["abc"] holds a character that is no digit, and the store is
    not rejected: the worker is launched and 0 is returned. *)
Lemma store_heatmap_ignores_argument :
  known_task 0 VECTOR_TASK_DISKLATENCYHEATMAP
  ∧ (∃ c, c ∈ chars "abc" ∧ ¬ is_digit c)
  ∧ vector_store 0 VECTOR_TASK_DISKLATENCYHEATMAP 1 (Some "abc") 7 (Spawn 0 "")
      empty_world
    = Some (RET_0,
            World ∅ {[ "PCP_CONTEXT" := "7" ]}
              ["/var/lib/pcp/pmdas/vector/heatmap.sh &"] []).
Proof.
  split; [by unfold known_task|]. split; [|reflexivity].
  exists "a"%char. split; [by left|]. by intros [k [=]].
Qed.

(** C5 (amended): for every known task type that takes the seconds argument
    (all but disklatencyheatmap and jstackflamegraph), a store whose argument
    holds a character that is not a decimal digit is rejected with
    [PM_ERR_BADSTORE], before anything is launched; disklatencyheatmap and
    jstackflamegraph never look at the argument: their store does the same
    whatever the argument is, and never returns [PM_ERR_BADSTORE]; for every
    known task type, a store with the empty argument, or with no argument at
    all, is never rejected with [PM_ERR_BADSTORE]. *)
Theorem store_validates_argument item ctx sp w :
  0 ≤ item < VECTOR_TASK_METRIC_COUNT →
  (takes_argument item →
   ∀ arg, (∃ c, c ∈ chars arg ∧ ¬ is_digit c) →
     vector_store 0 item 1 (Some arg) ctx sp w
     = Some (PM_ERR_BADSTORE, setenv "PCP_CONTEXT" (pretty ctx) w))
  ∧ (¬ takes_argument item →
     ∀ value,
       vector_store 0 item 1 value ctx sp w = vector_store 0 item 1 None ctx sp w
       ∧ fst <$> vector_store 0 item 1 value ctx sp w ≠ Some PM_ERR_BADSTORE)
  ∧ fst <$> vector_store 0 item 1 (Some "") ctx sp w ≠ Some PM_ERR_BADSTORE
  ∧ fst <$> vector_store 0 item 1 None ctx sp w ≠ Some PM_ERR_BADSTORE.
Proof.
  intros Hitem. split; [|split].
  - intros Harg arg Hbad%badinput_1_iff.
    rewrite vector_store_with_argument by done. simpl. by rewrite Hbad.
  - intros Hnoarg value.
    assert (item = 1 ∨ item = 2) as Hfixed
      by (unfold takes_argument in Hnoarg; lia).
    rewrite !vector_store_without_argument by done. split; [done|].
    simpl. by destruct (busy _ _ _).
  - assert (∀ value, secs_of value = "" →
              fst <$> vector_store 0 item 1 value ctx sp w ≠ Some PM_ERR_BADSTORE)
      as Hempty; [|by split; apply Hempty].
    intros value Hsecs.
    destruct (busy w (taskname item) ctx) eqn:Hbusy.
    + rewrite store_busy; [done..|by rewrite Hsecs|done].
    + rewrite store_launches; [done..|by rewrite Hsecs|rewrite Hsecs; simpl; lia|done].
Qed.

Lemma store_validates_argument_witness :
  vector_store 0 VECTOR_TASK_OFFCPUFLAMEGRAPH 1 (Some "3;x") 7 (Spawn 0 "") cpu_progress
  = Some (PM_ERR_BADSTORE, setenv "PCP_CONTEXT" (pretty 7) cpu_progress)
  ∧ (vector_store 0 VECTOR_TASK_JSTACKFLAMEGRAPH 1 (Some "3;x") 7 (Spawn 0 "") cpu_progress
     = vector_store 0 VECTOR_TASK_JSTACKFLAMEGRAPH 1 None 7 (Spawn 0 "") cpu_progress
     ∧ fst <$> vector_store 0 VECTOR_TASK_JSTACKFLAMEGRAPH 1 (Some "3;x") 7 (Spawn 0 "")
                 cpu_progress ≠ Some PM_ERR_BADSTORE)
  ∧ fst <$> vector_store 0 VECTOR_TASK_OFFCPUFLAMEGRAPH 1 (Some "") 7 (Spawn 0 "")
              cpu_progress ≠ Some PM_ERR_BADSTORE
  ∧ fst <$> vector_store 0 VECTOR_TASK_OFFCPUFLAMEGRAPH 1 None 7 (Spawn 0 "")
              cpu_progress ≠ Some PM_ERR_BADSTORE.
Proof.
  destruct (store_validates_argument VECTOR_TASK_OFFCPUFLAMEGRAPH 7 (Spawn 0 "")
              cpu_progress) as (Hbad & _ & Hempty & Hnone); [lia|].
  destruct (store_validates_argument VECTOR_TASK_JSTACKFLAMEGRAPH 7 (Spawn 0 "")
              cpu_progress) as (_ & Hignored & _); [lia|].
  split; [|split; [|by split]].
  - apply Hbad; [unfold takes_argument; lia|].
    exists ";"%char. split; [right; left|]. by intros [k [=]].
  - apply Hignored. unfold takes_argument. lia.
Defined.

(** ** Unknown task types *)

(** C6: for every PMID outside the known set (a cluster other than 0, or an
    item outside [0, VECTOR_TASK_METRIC_COUNT)), the store and the fetch (of
    the null instance, the only one these metrics have) both return
    [PM_ERR_PMID], for every session and every state of the store, and the
    fetch changes nothing. *)
Theorem unknown_task_PM_ERR_PMID cluster item numval value ctx sp w :
  ¬ known_task cluster item →
  fst <$> vector_store cluster item numval value ctx sp w = Some PM_ERR_PMID
  ∧ vector_fetchCallBack cluster item PM_IN_NULL ctx w = (PM_ERR_PMID, None, w).
Proof.
  intros Hunknown. split.
  - by apply vector_store_other.
  - by apply vector_fetchCallBack_other.
Qed.

Lemma unknown_task_PM_ERR_PMID_witness :
  fst <$> vector_store 0 11 1 (Some "30") 7 (Spawn 0 "") cpu_progress = Some PM_ERR_PMID
  ∧ vector_fetchCallBack 0 11 PM_IN_NULL 7 cpu_progress = (PM_ERR_PMID, None, cpu_progress).
Proof.
  apply (unknown_task_PM_ERR_PMID 0 11 1 (Some "30") 7 (Spawn 0 "") cpu_progress).
  unfold known_task. lia.
Defined.

(** ** Idempotence of the fetch *)

(** C7: for every known task type and session, with no record every fetch
    answers ["IDLE"] and leaves the world as it is; with a record whose
    status is not ["DONE"] every fetch answers that same status and leaves
    the world, the record with it, as it is. *)
Theorem fetch_idempotent item ctx w n :
  0 ≤ item < VECTOR_TASK_METRIC_COUNT →
  (files w !! statuspath (taskname item) ctx = None →
   vector_fetchCallBack 0 item PM_IN_NULL ctx w = (PMDA_FETCH_STATIC, Some "IDLE", w)
   ∧ fetches n item ctx w = (replicate n (Some "IDLE"), w))
  ∧ (hasstatus w (taskname item) ctx = 1 →
     getstatus w (taskname item) statusmsg_size ctx ≠ "DONE" →
     let status := getstatus w (taskname item) statusmsg_size ctx in
     vector_fetchCallBack 0 item PM_IN_NULL ctx w = (PMDA_FETCH_STATIC, Some status, w)
     ∧ fetches n item ctx w = (replicate n (Some status), w)).
Proof.
  intros Hitem. split.
  - intros Hnone. pose proof (fetch_idle item ctx w Hitem Hnone) as Hfetch.
    split; [done|]. by eapply fetches_unchanged.
  - intros Hhas Hstatus status.
    pose proof (fetch_not_DONE item ctx w Hitem Hhas Hstatus) as Hfetch.
    split; [done|]. by eapply fetches_unchanged.
Qed.

Lemma fetch_idempotent_witness :
  (files cpu_progress !! statuspath (taskname VECTOR_TASK_IPCFLAMEGRAPH) 7 = None
   ∧ fetches 3 VECTOR_TASK_IPCFLAMEGRAPH 7 cpu_progress
     = (replicate 3 (Some "IDLE"), cpu_progress))
  ∧ (getstatus cpu_progress (taskname VECTOR_TASK_CPUFLAMEGRAPH) statusmsg_size 7
     = "profiling 50%"
     ∧ fetches 3 VECTOR_TASK_CPUFLAMEGRAPH 7 cpu_progress
       = (replicate 3 (Some "profiling 50%"), cpu_progress)).
Proof.
  split.
  - split; [reflexivity|].
    apply (fetch_idempotent VECTOR_TASK_IPCFLAMEGRAPH 7 cpu_progress 3); [lia|reflexivity].
  - split; [reflexivity|].
    apply (fetch_idempotent VECTOR_TASK_CPUFLAMEGRAPH 7 cpu_progress 3);
      [lia|reflexivity|discriminate].
Defined.

(** ** Launch failures *)




(** ** Reading a status *)

(** C9, as stated, fails. A record of the single byte ["X"] is neither
    empty nor unreadable ([read] returns 1) and reads as ["UNKNOWN"]; of a
    record ["DONE"] without newline the last letter is cut; a line longer
    than the buffer is cut at 255 bytes. *)
Lemma getstatus_not_raw_text :
  (read (File "X") statusmsg_size = (1, "X")
   ∧ getstatus (one_file (statuspath "cpuflamegraph" 7) (File "X"))
       "cpuflamegraph" statusmsg_size 7 = "UNKNOWN")
  ∧ getstatus (one_file (statuspath "cpuflamegraph" 7) (File "DONE"))
      "cpuflamegraph" statusmsg_size 7 = "DON"
  ∧ String.length
      (getstatus (one_file (statuspath "cpuflamegraph" 7) (File (line long_text)))
         "cpuflamegraph" statusmsg_size 7) = 255%nat.
Proof. repeat split; reflexivity. Qed.

(** C9 (amended): for every key, [getstatus] returns ["UNKNOWN"] when there
    is no record, when the record cannot be read and when it holds fewer
    than two bytes; when the record is one status line (a text without NUL
    and its newline) of at most 256 bytes, [getstatus] returns the text
    without the newline if there is any text, and ["UNKNOWN"] if the line is
    empty. *)
Theorem getstatus_line_or_UNKNOWN w metric ctx :
  (files w !! statuspath metric ctx = None →
   getstatus w metric statusmsg_size ctx = "UNKNOWN")
  ∧ (files w !! statuspath metric ctx = Some Faulty →
     getstatus w metric statusmsg_size ctx = "UNKNOWN")
  ∧ (∀ data, files w !! statuspath metric ctx = Some (File data) →
       (String.length data < 2)%nat →
       getstatus w metric statusmsg_size ctx = "UNKNOWN")
  ∧ (∀ text, files w !! statuspath metric ctx = Some (File (line text)) →
       cstr text = text →
       (String.length (line text) ≤ 256)%nat →
       getstatus w metric statusmsg_size ctx = if decide (text = "") then "UNKNOWN" else text).
Proof.
  split; [apply getstatus_absent|]. split; [apply getstatus_faulty|]. split.
  - intros data Hfile Hlen. eapply getstatus_short; [done|lia].
  - intros text Hfile Htext Hlen. case_decide as Hempty.
    + subst text. by eapply getstatus_short.
    + apply getstatus_line; [done..|]. unfold statusmsg_size. lia.
Qed.

Lemma getstatus_line_or_UNKNOWN_witness :
  getstatus empty_world "cpuflamegraph" statusmsg_size 7 = "UNKNOWN"
  ∧ getstatus cpu_faulty "cpuflamegraph" statusmsg_size 7 = "UNKNOWN"
  ∧ getstatus (one_file (statuspath "cpuflamegraph" 7) (File "X"))
      "cpuflamegraph" statusmsg_size 7 = "UNKNOWN"
  ∧ getstatus cpu_progress "cpuflamegraph" statusmsg_size 7 = "profiling 50%"
  ∧ getstatus (one_file (statuspath "cpuflamegraph" 7) (File (line "")))
      "cpuflamegraph" statusmsg_size 7 = "UNKNOWN".
Proof.
  split.
  { destruct (getstatus_line_or_UNKNOWN empty_world "cpuflamegraph" 7) as (H & _).
    apply H. reflexivity. }
  split.
  { destruct (getstatus_line_or_UNKNOWN cpu_faulty "cpuflamegraph" 7) as (_ & H & _).
    apply H. reflexivity. }
  split.
  { destruct (getstatus_line_or_UNKNOWN
                (one_file (statuspath "cpuflamegraph" 7) (File "X")) "cpuflamegraph" 7)
      as (_ & _ & H & _).
    apply (H "X"); [reflexivity|simpl; lia]. }
  split.
  - destruct (getstatus_line_or_UNKNOWN cpu_progress "cpuflamegraph" 7)
      as (_ & _ & _ & H).
    apply (H "profiling 50%"); [reflexivity|reflexivity|simpl; lia].
  - destruct (getstatus_line_or_UNKNOWN
                (one_file (statuspath "cpuflamegraph" 7) (File (line ""))) "cpuflamegraph" 7)
      as (_ & _ & _ & H).
    apply (H ""); [reflexivity|reflexivity|simpl; lia].
Defined.

(** ** Records that cannot be read *)

(** C10: for every known task type and session, if a record is there and
    reads as ["UNKNOWN"], a store (with an argument that passes validation)
    is turned away with [PM_ERR_AGAIN]; neither the store nor a fetch
    removes the record, so the key stays blocked. *)
Theorem store_UNKNOWN_record_is_busy item value ctx sp w :
  0 ≤ item < VECTOR_TASK_METRIC_COUNT →
  hasstatus w (taskname item) ctx = 1 →
  getstatus w (taskname item) statusmsg_size ctx = "UNKNOWN" →
  badinput (secs_of value) = 0 →
  ∃ w',
    vector_store 0 item 1 value ctx sp w = Some (PM_ERR_AGAIN, w')
    ∧ files w' = files w
    ∧ launched w' = launched w
    ∧ vector_fetchCallBack 0 item PM_IN_NULL ctx w = (PMDA_FETCH_STATIC, Some "UNKNOWN", w).
Proof.
  intros Hitem Hhas Hstatus Hvalid. eexists. split; [|split; [|split]].
  - apply store_busy; [done..|]. apply busy_true; [done..| |]; by rewrite Hstatus.
  - done.
  - done.
  - rewrite <-Hstatus at 1. apply fetch_not_DONE; [done..|]. by rewrite Hstatus.
Qed.

Lemma store_UNKNOWN_record_is_busy_witness :
  ∃ w',
    vector_store 0 VECTOR_TASK_CPUFLAMEGRAPH 1 (Some "30") 7 (Spawn 0 "") cpu_faulty
      = Some (PM_ERR_AGAIN, w')
    ∧ files w' = files cpu_faulty
    ∧ launched w' = launched cpu_faulty
    ∧ vector_fetchCallBack 0 VECTOR_TASK_CPUFLAMEGRAPH PM_IN_NULL 7 cpu_faulty
      = (PMDA_FETCH_STATIC, Some "UNKNOWN", cpu_faulty).
Proof.
  apply (store_UNKNOWN_record_is_busy VECTOR_TASK_CPUFLAMEGRAPH (Some "30") 7
           (Spawn 0 "") cpu_faulty);
    [lia | reflexivity | reflexivity | reflexivity].
Defined.

(** * More of the agent *)

(** ** Strings, once more *)

Lemma append_cancel_r (s1 s2 t : string) : s1 +:+ t = s2 +:+ t → s1 = s2.
Proof.
  revert s2. induction s1 as [|c s1 IH]; intros [|d s2] H.
  - done.
  - apply (f_equal String.length) in H. rewrite !length_append in H.
    simpl in H. lia.
  - apply (f_equal String.length) in H. rewrite !length_append in H.
    simpl in H. lia.
  - rewrite !append_String in H. injection H as -> H. f_equal. by apply IH.
Qed.

Lemma chars_append (s t : string) : chars (s +:+ t) = chars s ++ chars t.
Proof.
  unfold chars. induction s as [|c s IH]; [done|].
  rewrite append_String. simpl. by rewrite IH.
Qed.

Lemma length_cstr (buf : string) : (String.length (cstr buf) ≤ String.length buf)%nat.
Proof.
  induction buf as [|c buf IH]; [done|]. simpl.
  destruct (Ascii.eqb c NUL); simpl; lia.
Qed.

Lemma length_substring_0 (k : nat) (s : string) :
  (String.length (String.substring 0 k s) ≤ k)%nat.
Proof.
  revert s. induction k as [|k IH]; intros [|c s]; simpl; try lia.
  specialize (IH s). lia.
Qed.

(** The digits of a number below [10 ^ k] are at most [k]. *)
Lemma length_pretty_N_go (k : nat) (x : N) (s : string) :
  (x < 10 ^ N.of_nat k)%N →
  (String.length (pretty_N_go x s) ≤ k + String.length s)%nat.
Proof.
  revert x s. induction k as [|k IH]; intros x s Hx.
  - assert (x = 0%N) as -> by (simpl in Hx; lia). rewrite pretty_N_go_0. lia.
  - destruct (decide (x = 0%N)) as [->|Hpos].
    { rewrite pretty_N_go_0. lia. }
    rewrite pretty_N_go_step by lia.
    etrans; [apply IH|simpl; lia].
    rewrite Nat2N.inj_succ, N.pow_succ_r' in Hx.
    apply N.Div0.div_lt_upper_bound. lia.
Qed.

(** ["%d"] of an [int] takes at most 11 characters. *)
Lemma length_pretty_int (z : Z) :
  is_int z → (String.length (pretty z) ≤ 11)%nat.
Proof.
  unfold is_int. intros Hz.
  assert (∀ p : positive, (N.pos p < 10 ^ N.of_nat 10)%N →
            (String.length (pretty p) ≤ 10)%nat) as Hpos.
  { intros p Hp. unfold pretty, pretty_positive, pretty, pretty_N.
    case_decide; [done|].
    etrans; [by apply (length_pretty_N_go 10)|simpl; lia]. }
  destruct z as [|p|p]; unfold pretty, pretty_Z.
  - simpl. lia.
  - etrans; [apply Hpos; lia|lia].
  - rewrite length_append. simpl.
    assert (String.length (pretty p) ≤ 10)%nat by (apply Hpos; lia). lia.
Qed.

(** ** One file per key *)

Lemma statuspath_inj_ctx metric c1 c2 :
  statuspath metric c1 = statuspath metric c2 → c1 = c2.
Proof.
  unfold statuspath. intros H.
  do 6 apply (inj (String.app _)) in H.
  apply append_cancel_r in H. by apply (inj pretty) in H.
Qed.

(** Two texts without slash that are followed by a slash: equal wholes
    have equal parts. *)
Lemma append_slash_inj (m1 m2 r1 r2 : string) :
  Forall (λ c, c ≠ "/"%char) (chars m1) →
  Forall (λ c, c ≠ "/"%char) (chars m2) →
  m1 +:+ String "/" r1 = m2 +:+ String "/" r2 →
  m1 = m2 ∧ r1 = r2.
Proof.
  revert m2. induction m1 as [|c m1 IH]; intros [|d m2] H1 H2 H.
  - by injection H as ->.
  - rewrite append_String in H. injection H as <- _.
    by apply Forall_cons in H2 as [? _].
  - rewrite append_String in H. injection H as -> _.
    by apply Forall_cons in H1 as [? _].
  - rewrite !append_String in H. injection H as -> H.
    apply Forall_cons in H1 as [_ H1]. apply Forall_cons in H2 as [_ H2].
    destruct (IH m2 H1 H2 H) as [-> ->]. done.
Qed.

Lemma taskname_no_slash item :
  0 ≤ item < VECTOR_TASK_METRIC_COUNT →
  Forall (λ c, c ≠ "/"%char) (chars (taskname item)).
Proof.
  intros Hitem.
  each_item Hitem; repeat (constructor; [discriminate|]); constructor.
Qed.

Lemma taskname_inj i j :
  0 ≤ i < VECTOR_TASK_METRIC_COUNT →
  0 ≤ j < VECTOR_TASK_METRIC_COUNT →
  taskname i = taskname j → i = j.
Proof. intros Hi Hj. each_item Hi; each_item Hj; intros H; done. Qed.

Lemma statuspath_taskname_inj i j c1 c2 :
  0 ≤ i < VECTOR_TASK_METRIC_COUNT →
  0 ≤ j < VECTOR_TASK_METRIC_COUNT →
  statuspath (taskname i) c1 = statuspath (taskname j) c2 →
  i = j ∧ c1 = c2.
Proof.
  intros Hi Hj H.
  assert (taskname i = taskname j) as Hname.
  { unfold statuspath in H. do 2 apply (inj (String.app _)) in H.
    by apply append_slash_inj in H as [? _]; [|apply taskname_no_slash..]. }
  assert (i = j) as <- by by apply taskname_inj.
  split; [done|]. by eapply statuspath_inj_ctx.
Qed.

(** ** The entry points on every input *)

Lemma takes_argument_dec_spec item :
  takes_argument_dec item = true ↔ takes_argument item.
Proof. unfold takes_argument, takes_argument_dec. lia. Qed.

Lemma vector_store_unknown_item item value ctx sp w :
  ¬ 0 ≤ item < VECTOR_TASK_METRIC_COUNT →
  vector_store 0 item 1 value ctx sp w
  = Some (PM_ERR_PMID, setenv "PCP_CONTEXT" (pretty ctx) w).
Proof. intros Hitem. unfold vector_store. simpl negb. cbv iota. other_item item p. Qed.

Lemma sprintf_into_Some size text cmd :
  sprintf_into size text = Some cmd → cmd = text ∧ (String.length text < size)%nat.
Proof.
  unfold sprintf_into. destruct (Nat.ltb_spec (String.length text) size); [|done].
  by intros [= ->].
Qed.

(** [vector_store] on every input, in the steps of the source. *)
Lemma vector_store_shape cluster item numval value ctx sp w :
  vector_store cluster item numval value ctx sp w =
    if negb (cluster =? 0) || negb (numval =? 1) then Some (PM_ERR_PMID, w)
    else
      let w1 := setenv "PCP_CONTEXT" (pretty ctx) w in
      if negb ((0 <=? item) && (item <? VECTOR_TASK_METRIC_COUNT))
      then Some (PM_ERR_PMID, w1)
      else if takes_argument_dec item && truthy (badinput (secs_of value))
      then Some (PM_ERR_BADSTORE, w1)
      else if busy w (taskname item) ctx then Some (PM_ERR_AGAIN, w1)
      else if takes_argument_dec item
      then cmd ← sprintf_into cmd_size (command_with_argument item (secs_of value));
           Some (RET_0, launch cmd sp w1)
      else Some (RET_0, launch (command_without_argument item) sp w1).
Proof.
  destruct (Z.eqb_spec cluster 0) as [->|Hc];
    [|by apply Z.eqb_neq in Hc; unfold vector_store; rewrite Hc].
  destruct (Z.eqb_spec numval 1) as [->|Hn];
    [|by apply Z.eqb_neq in Hn; unfold vector_store; rewrite Hn].
  simpl negb. simpl orb. cbv iota zeta.
  destruct ((0 <=? item) && (item <? 11)) eqn:Hknown; simpl negb; cbv iota.
  - assert (0 ≤ item < 11) as Hitem by lia.
    destruct (takes_argument_dec item) eqn:Hdec.
    + apply takes_argument_dec_spec in Hdec.
      rewrite vector_store_with_argument by done. simpl.
      by destruct (truthy (badinput (secs_of value))).
    + rewrite vector_store_without_argument
        by (unfold takes_argument_dec in Hdec; lia).
      done.
  - apply vector_store_unknown_item. lia.
Qed.

(** [vector_fetchCallBack] on every input, in the steps of the source. *)
Lemma vector_fetchCallBack_shape cluster item inst ctx w :
  vector_fetchCallBack cluster item inst ctx w =
    if negb (cluster =? 0) then (PM_ERR_PMID, None, w)
    else if negb (inst =? PM_IN_NULL) then (PM_ERR_INST, None, w)
    else if negb ((0 <=? item) && (item <? VECTOR_TASK_METRIC_COUNT))
    then (PM_ERR_PMID, None, w)
    else if truthy (hasstatus w (taskname item) ctx)
    then
      let cp := getstatus w (taskname item) statusmsg_size ctx in
      if strcmp cp "DONE" =? 0
      then (PMDA_FETCH_STATIC,
            Some (if takes_argument_dec item then done_message item ctx else cp),
            rmstatus w (taskname item) ctx)
      else (PMDA_FETCH_STATIC, Some cp, w)
    else (PMDA_FETCH_STATIC, Some "IDLE", w).
Proof.
  destruct (Z.eqb_spec cluster 0) as [->|Hc];
    [|by apply Z.eqb_neq in Hc; unfold vector_fetchCallBack; rewrite Hc].
  destruct (Z.eqb_spec inst PM_IN_NULL) as [->|Hinst].
  - simpl negb. cbv iota.
    destruct ((0 <=? item) && (item <? 11)) eqn:Hknown; simpl negb; cbv iota.
    + apply vector_fetchCallBack_known. lia.
    + apply vector_fetchCallBack_other. unfold known_task. lia.
  - apply Z.eqb_neq in Hinst. unfold vector_fetchCallBack. simpl.
    by rewrite Hinst.
Qed.

(** How a store ends: with 0 after one launch, or with an error and
    nothing but PCP_CONTEXT touched. *)
Lemma vector_store_ends cluster item numval value ctx sp w r w' :
  vector_store cluster item numval value ctx sp w = Some (r, w') →
  let w1 := setenv "PCP_CONTEXT" (pretty ctx) w in
  (r = RET_0 ∧ cluster = 0 ∧ numval = 1 ∧ 0 ≤ item < VECTOR_TASK_METRIC_COUNT
   ∧ busy w (taskname item) ctx = false
   ∧ ∃ cmd, w' = launch cmd sp w1 ∧ (String.length cmd < cmd_size)%nat
       ∧ ((takes_argument item ∧ badinput (secs_of value) = 0
           ∧ cmd = command_with_argument item (secs_of value))
          ∨ (¬ takes_argument item ∧ cmd = command_without_argument item)))
  ∨ ((r = PM_ERR_PMID ∨ r = PM_ERR_BADSTORE ∨ r = PM_ERR_AGAIN)
     ∧ (((cluster ≠ 0 ∨ numval ≠ 1) ∧ w' = w)
        ∨ (cluster = 0 ∧ numval = 1 ∧ w' = w1))).
Proof.
  rewrite vector_store_shape. intros H w1.
  destruct (Z.eqb_spec cluster 0) as [->|]; [|simplify_eq/=; intuition done].
  destruct (Z.eqb_spec numval 1) as [->|]; [|simplify_eq/=; intuition done].
  simpl in H.
  destruct ((0 <=? item) && (item <? 11)) eqn:Hknown; simpl in H;
    [|simplify_eq; intuition done].
  assert (0 ≤ item < 11) as Hitem by lia.
  destruct (takes_argument_dec item) eqn:Hdec; simpl in H.
  - apply takes_argument_dec_spec in Hdec.
    destruct (badinput_range (secs_of value)) as [Hvalid|Hvalid];
      rewrite Hvalid in H; simpl in H; [|simplify_eq; intuition done].
    destruct (busy w (taskname item) ctx) eqn:Hbusy; [simplify_eq; intuition done|].
    destruct (sprintf_into cmd_size _) as [cmd|] eqn:Hcmd; [|done].
    apply sprintf_into_Some in Hcmd as [-> Hfit]. simplify_eq/=.
    left. do 5 (split; [done|]). eexists. split; [done|]. split; [done|]. by left.
  - assert (¬ takes_argument item) as Hnoarg
      by (rewrite <-takes_argument_dec_spec, Hdec; done).
    destruct (busy w (taskname item) ctx) eqn:Hbusy; [simplify_eq; intuition done|].
    simplify_eq. left. do 5 (split; [done|]). eexists. split; [done|].
    split; [|by right].
    assert (item = 1 ∨ item = 2) as [-> | ->]
      by (unfold takes_argument in Hnoarg; lia); vm_compute; lia.
Qed.

(** ** Keys and buffers *)

(** X1: the status files of two keys with known task types are the same
    file only when the task types and the sessions are the same: every key
    has a file of its own. *)
Theorem statuspath_one_per_key i j c1 c2 :
  0 ≤ i < VECTOR_TASK_METRIC_COUNT →
  0 ≤ j < VECTOR_TASK_METRIC_COUNT →
  statuspath (taskname i) c1 = statuspath (taskname j) c2 ↔ i = j ∧ c1 = c2.
Proof.
  intros Hi Hj. split; [by apply statuspath_taskname_inj|]. by intros [-> ->].
Qed.

Lemma statuspath_one_per_key_witness :
  statuspath (taskname VECTOR_TASK_CPUFLAMEGRAPH) 7
  = statuspath (taskname VECTOR_TASK_CSWFLAMEGRAPH) 17
  ↔ VECTOR_TASK_CPUFLAMEGRAPH = VECTOR_TASK_CSWFLAMEGRAPH ∧ 7 = 17.
Proof. apply statuspath_one_per_key; lia. Defined.

Lemma sprintf_buffers_fit_aux item ctx :
  0 ≤ item < VECTOR_TASK_METRIC_COUNT →
  is_int ctx →
  (String.length (statuspath (taskname item) ctx) < 256)%nat
  ∧ (String.length (done_message item ctx) < 256)%nat
  ∧ (String.length (pretty ctx) < 64)%nat.
Proof.
  intros Hitem Hctx. pose proof (length_pretty_int ctx Hctx) as Hdigits.
  unfold statuspath, done_message, WORKING_DIR. rewrite !length_append.
  each_item Hitem; simpl; lia.
Qed.

(** X2: for every known task type and every session identifier that is an
    [int], what the source prints with [sprintf] into [statuspath[256]],
    [statusmsg[256]] and [ctxstr[64]] fits the buffer with its NUL. *)
Theorem sprintf_buffers_fit item ctx :
  0 ≤ item < VECTOR_TASK_METRIC_COUNT →
  is_int ctx →
  (String.length (statuspath (taskname item) ctx) < 256)%nat
  ∧ (String.length (done_message item ctx) < 256)%nat
  ∧ (String.length (pretty ctx) < 64)%nat.
Proof. apply sprintf_buffers_fit_aux. Qed.

Lemma sprintf_buffers_fit_witness :
  (String.length (statuspath (taskname VECTOR_TASK_UNINLINEDCPUFLAMEGRAPH) (-2147483648)%Z)
   < 256)%nat
  ∧ (String.length (done_message VECTOR_TASK_UNINLINEDCPUFLAMEGRAPH (-2147483648)%Z) < 256)%nat
  ∧ (String.length (pretty (-2147483648)%Z) < 64)%nat.
Proof. apply sprintf_buffers_fit; unfold is_int; lia. Defined.

(** ** What a store does to the world *)

(** X3: a store never creates, changes or removes a status file, whatever
    it is asked and however it ends; the record of a launch is left to the
    worker. So the record the busy check saw is still there after a store
    that went through. *)
Theorem store_never_touches_files cluster item numval value ctx sp w r w' :
  vector_store cluster item numval value ctx sp w = Some (r, w') →
  files w' = files w
  ∧ ∀ metric c,
      hasstatus w' metric c = hasstatus w metric c
      ∧ getstatus w' metric statusmsg_size c = getstatus w metric statusmsg_size c.
Proof.
  intros Hstore.
  assert (files w' = files w) as Hfiles.
  { destruct (vector_store_ends _ _ _ _ _ _ _ _ _ Hstore)
      as [(_ & _ & _ & _ & _ & cmd & -> & _)|(_ & [[_ ->] |(_ & _ & ->)])]; [|done..].
    by destruct (launch_effect cmd sp (setenv "PCP_CONTEXT" (pretty ctx) w)) as (-> & _). }
  split; [done|]. intros metric c.
  unfold hasstatus, getstatus, open_rdonly. by rewrite Hfiles.
Qed.

Lemma store_never_touches_files_witness :
  files (World {[ statuspath "cpuflamegraph" 7 := File (line "DONE") ]}
           {[ "PCP_CONTEXT" := "7" ]}
           ["/var/lib/pcp/pmdas/vector/cpuflamegraph.sh 30 &"] [])
  = files cpu_DONE
  ∧ ∀ metric c,
      hasstatus (World {[ statuspath "cpuflamegraph" 7 := File (line "DONE") ]}
                   {[ "PCP_CONTEXT" := "7" ]}
                   ["/var/lib/pcp/pmdas/vector/cpuflamegraph.sh 30 &"] []) metric c
      = hasstatus cpu_DONE metric c
      ∧ getstatus (World {[ statuspath "cpuflamegraph" 7 := File (line "DONE") ]}
                     {[ "PCP_CONTEXT" := "7" ]}
                     ["/var/lib/pcp/pmdas/vector/cpuflamegraph.sh 30 &"] [])
          metric statusmsg_size c
        = getstatus cpu_DONE metric statusmsg_size c.
Proof.
  apply (store_never_touches_files 0 VECTOR_TASK_CPUFLAMEGRAPH 1 (Some "30") 7
           (Spawn 0 "") cpu_DONE RET_0).
  reflexivity.
Defined.

(** X4: a store that returns 0 has handed exactly one command to the shell;
    a store that returns an error has handed none and has written nothing
    to stderr. *)
Theorem store_launches_once_on_0 cluster item numval value ctx sp w r w' :
  vector_store cluster item numval value ctx sp w = Some (r, w') →
  (r = RET_0 → ∃ cmd, launched w' = launched w ++ [cmd])
  ∧ (r ≠ RET_0 → launched w' = launched w ∧ errlog w' = errlog w).
Proof.
  intros Hstore.
  destruct (vector_store_ends _ _ _ _ _ _ _ _ _ Hstore)
    as [(-> & _ & _ & _ & _ & cmd & -> & _)|(Hr & Hw)].
  - split; [|done]. intros _. exists cmd.
    by destruct (launch_effect cmd sp (setenv "PCP_CONTEXT" (pretty ctx) w))
      as (_ & _ & -> & _).
  - split; [by intros ->; destruct Hr as [|[|]]|].
    intros _. by destruct Hw as [[_ ->] |(_ & _ & ->)].
Qed.

Lemma store_launches_once_on_0_witness :
  (PM_ERR_AGAIN = RET_0 →
   ∃ cmd, launched (setenv "PCP_CONTEXT" "7" cpu_progress) = launched cpu_progress ++ [cmd])
  ∧ (PM_ERR_AGAIN ≠ RET_0 →
     launched (setenv "PCP_CONTEXT" "7" cpu_progress) = launched cpu_progress
     ∧ errlog (setenv "PCP_CONTEXT" "7" cpu_progress) = errlog cpu_progress).
Proof.
  apply (store_launches_once_on_0 0 VECTOR_TASK_CPUFLAMEGRAPH 1 (Some "30") 7
           (Spawn 0 "") cpu_progress PM_ERR_AGAIN).
  reflexivity.
Defined.

Lemma digit_is_plain c : is_digit c → plain_char c = true.
Proof.
  intros [k Hk]. destruct c as [[] [] [] [] [] [] [] []]; by vm_compute in Hk |- *.
Qed.

Lemma plain_text (s : string) :
  forallb plain_char (chars s) = true → Forall (λ c, plain_char c = true) (chars s).
Proof.
  induction (chars s) as [|c l IH]; [constructor|]. simpl.
  intros [Hc Hl]%andb_true_iff. constructor; [done|by apply IH].
Qed.

(** X5: every command a store hands to the shell is a text of small
    letters, digits, slashes, dots and blanks, followed by [" &"]: whatever
    the argument of the request was, no other character reaches the
    shell. *)
Theorem store_command_is_plain cluster item numval value ctx sp w w' :
  vector_store cluster item numval value ctx sp w = Some (RET_0, w') →
  ∃ body,
    launched w' = launched w ++ [body +:+ " &"]
    ∧ Forall (λ c, plain_char c = true) (chars body).
Proof.
  intros Hstore.
  destruct (vector_store_ends _ _ _ _ _ _ _ _ _ Hstore)
    as [(_ & _ & _ & Hitem & _ & cmd & -> & _ & Hcmd)|([? |[? | ?]] & _)]; [|done..].
  destruct (launch_effect cmd sp (setenv "PCP_CONTEXT" (pretty ctx) w))
    as (_ & _ & -> & _). simpl.
  destruct Hcmd as [(Harg & Hvalid & ->)|(Hnoarg & ->)].
  - exists (VECTOR_DIR +:+ "/" +:+ taskname item +:+ ".sh " +:+ secs_of value).
    split; [by unfold command_with_argument; rewrite !append_assoc|].
    rewrite !chars_append, !Forall_app.
    apply badinput_0_iff in Hvalid.
    split; [by apply plain_text|].
    split; [by apply plain_text|].
    split; [by each_item Hitem; apply plain_text|].
    split; [by apply plain_text|].
    eapply Forall_impl; [done|]. apply digit_is_plain.
  - assert (item = 1 ∨ item = 2) as [-> | ->]
      by (unfold takes_argument in Hnoarg; lia).
    + exists "/var/lib/pcp/pmdas/vector/heatmap.sh".
      split; [done|]. by apply plain_text.
    + exists "/var/lib/pcp/pmdas/vector/jstack.sh".
      split; [done|]. by apply plain_text.
Qed.

Lemma store_command_is_plain_witness :
  ∃ body,
    launched (World ∅ {[ "PCP_CONTEXT" := "7" ]}
                ["/var/lib/pcp/pmdas/vector/offcpuflamegraph.sh 30 &"] [])
    = launched empty_world ++ [body +:+ " &"]
    ∧ Forall (λ c, plain_char c = true) (chars body).
Proof.
  apply (store_command_is_plain 0 VECTOR_TASK_OFFCPUFLAMEGRAPH 1 (Some "30") 7
           (Spawn 0 "") empty_world).
  reflexivity.
Defined.

(** X6: a store of a PMID of cluster 0 with one value sets PCP_CONTEXT to
    the session identifier in decimal and leaves the rest of the environment
    alone, also when it then rejects the request; a store of another cluster
    or with another number of values returns [PM_ERR_PMID] and leaves the
    whole world as it is. *)
Theorem store_exports_context cluster item numval value ctx sp w :
  (cluster ≠ 0 ∨ numval ≠ 1 →
   vector_store cluster item numval value ctx sp w = Some (PM_ERR_PMID, w))
  ∧ (cluster = 0 → numval = 1 → ∀ r w',
       vector_store cluster item numval value ctx sp w = Some (r, w') →
       environ w' = <["PCP_CONTEXT" := pretty ctx]> (environ w)).
Proof.
  split.
  - intros Hbad. rewrite vector_store_shape.
    by destruct (Z.eqb_spec cluster 0), (Z.eqb_spec numval 1); try lia.
  - intros -> -> r w' Hstore.
    destruct (vector_store_ends _ _ _ _ _ _ _ _ _ Hstore)
      as [(_ & _ & _ & _ & _ & cmd & -> & _)|(_ & [[[?|?] _] |(_ & _ & ->)])];
      [|done..].
    by destruct (launch_effect cmd sp (setenv "PCP_CONTEXT" (pretty ctx) w))
      as (_ & -> & _).
Qed.

Lemma store_exports_context_witness :
  vector_store 5 VECTOR_TASK_CPUFLAMEGRAPH 1 (Some "30") 7 (Spawn 0 "") empty_world
  = Some (PM_ERR_PMID, empty_world)
  ∧ environ (setenv "PCP_CONTEXT" "7" cpu_progress)
    = <["PCP_CONTEXT" := pretty 7]> (environ cpu_progress).
Proof.
  destruct (store_exports_context 5 VECTOR_TASK_CPUFLAMEGRAPH 1 (Some "30") 7
              (Spawn 0 "") empty_world) as [Hearly _].
  destruct (store_exports_context 0 VECTOR_TASK_CPUFLAMEGRAPH 1 (Some "3x") 7
              (Spawn 0 "") cpu_progress) as [_ Hset].
  split; [apply Hearly; left; lia|].
  apply (Hset eq_refl eq_refl PM_ERR_BADSTORE). reflexivity.
Defined.

(** ** What a fetch does to the world *)

(** The status fits [statusmsg]. *)
Lemma length_getstatus w metric ctx :
  (String.length (getstatus w metric statusmsg_size ctx) ≤ 255)%nat.
Proof.
  unfold getstatus. destruct (open_rdonly _ _) as [[data|]|]; simpl; try lia.
  destruct (Z.ltb_spec 1 (Z.min (Z.of_nat (String.length data)) statusmsg_size));
    [|simpl; lia].
  etrans; [apply length_cstr|]. etrans; [apply length_substring_0|].
  unfold statusmsg_size in *. lia.
Qed.

(** X7: a fetch, whatever it is asked, launches nothing, leaves the
    environment and stderr alone, and leaves every status file as it is but
    the one of its own key; that one it either leaves too or removes. *)
Theorem fetch_touches_own_record_only cluster item inst ctx w r cp w' :
  vector_fetchCallBack cluster item inst ctx w = (r, cp, w') →
  environ w' = environ w ∧ launched w' = launched w ∧ errlog w' = errlog w
  ∧ (files w' = files w
     ∨ files w' = delete (statuspath (taskname item) ctx) (files w)).
Proof.
  rewrite vector_fetchCallBack_shape. cbv zeta. intros Hfetch.
  destruct (negb (cluster =? 0)); [by simplify_eq; auto|].
  destruct (negb (inst =? PM_IN_NULL)); [by simplify_eq; auto|].
  destruct (negb _); [by simplify_eq; auto|].
  destruct (truthy _); [|by simplify_eq; auto].
  destruct (strcmp _ _ =? 0); simplify_eq; [|by auto].
  do 3 (split; [done|]). by right.
Qed.

Lemma fetch_touches_own_record_only_witness :
  environ empty_world = environ cpu_DONE
  ∧ launched empty_world = launched cpu_DONE
  ∧ errlog empty_world = errlog cpu_DONE
  ∧ (files empty_world = files cpu_DONE
     ∨ files empty_world
       = delete (statuspath (taskname VECTOR_TASK_CPUFLAMEGRAPH) 7) (files cpu_DONE)).
Proof.
  apply (fetch_touches_own_record_only 0 VECTOR_TASK_CPUFLAMEGRAPH PM_IN_NULL 7 cpu_DONE
           PMDA_FETCH_STATIC (Some "DONE cpuflamegraph/cpuflamegraph.7.svg")).
  by vm_compute.
Defined.

(** X8: for a known task type and the null instance a fetch never fails: it
    returns [PMDA_FETCH_STATIC] and leaves a string in [atom->cp], and for a
    session identifier that is an [int] the string is shorter than the 256
    bytes of [statusmsg]. *)
Theorem fetch_known_answers item ctx w :
  0 ≤ item < VECTOR_TASK_METRIC_COUNT →
  is_int ctx →
  ∃ cp w',
    vector_fetchCallBack 0 item PM_IN_NULL ctx w = (PMDA_FETCH_STATIC, Some cp, w')
    ∧ (String.length cp < 256)%nat.
Proof.
  intros Hitem Hctx. rewrite vector_fetchCallBack_known by done.
  pose proof (length_getstatus w (taskname item) ctx) as Hlen.
  destruct (sprintf_buffers_fit_aux item ctx Hitem Hctx) as (_ & Hmsg & _).
  cbv zeta. destruct (truthy _).
  - destruct (strcmp _ _ =? 0).
    + destruct (takes_argument_dec item); eexists _, _; (split; [reflexivity|]); lia.
    + eexists _, _. split; [reflexivity|]. lia.
  - eexists _, _. split; [reflexivity|]. simpl. lia.
Qed.

Lemma fetch_known_answers_witness :
  ∃ cp w',
    vector_fetchCallBack 0 VECTOR_TASK_JSTACKFLAMEGRAPH PM_IN_NULL 2147483647 cpu_faulty
    = (PMDA_FETCH_STATIC, Some cp, w')
    ∧ (String.length cp < 256)%nat.
Proof. apply fetch_known_answers; unfold is_int; lia. Defined.

(** ** Keys do not meet *)

Lemma same_record_status metric ctx w1 w2 :
  same_record metric ctx w1 w2 →
  hasstatus w1 metric ctx = hasstatus w2 metric ctx
  ∧ getstatus w1 metric statusmsg_size ctx = getstatus w2 metric statusmsg_size ctx
  ∧ busy w1 metric ctx = busy w2 metric ctx.
Proof.
  unfold same_record. intros Hsame.
  assert (hasstatus w1 metric ctx = hasstatus w2 metric ctx) as Hhas
    by (unfold hasstatus, open_rdonly; by rewrite Hsame).
  assert (getstatus w1 metric statusmsg_size ctx = getstatus w2 metric statusmsg_size ctx)
    as Hget by (unfold getstatus, open_rdonly; by rewrite Hsame).
  split; [done|]. split; [done|]. unfold busy. by rewrite Hhas, Hget.
Qed.

(** X9: a fetch on one key leaves the record of every other key of the known
    task types as it is: what [hasstatus] and [getstatus] give for the other
    key, and what a fetch on the other key answers, is the same before and
    after. *)
Theorem fetch_leaves_other_keys i j c1 c2 w r cp w' :
  0 ≤ i < VECTOR_TASK_METRIC_COUNT →
  0 ≤ j < VECTOR_TASK_METRIC_COUNT →
  i ≠ j ∨ c1 ≠ c2 →
  vector_fetchCallBack 0 i PM_IN_NULL c1 w = (r, cp, w') →
  hasstatus w' (taskname j) c2 = hasstatus w (taskname j) c2
  ∧ getstatus w' (taskname j) statusmsg_size c2 = getstatus w (taskname j) statusmsg_size c2
  ∧ (vector_fetchCallBack 0 j PM_IN_NULL c2 w').1
    = (vector_fetchCallBack 0 j PM_IN_NULL c2 w).1.
Proof.
  intros Hi Hj Hother Hfetch.
  assert (same_record (taskname j) c2 w' w) as Hsame.
  { unfold same_record.
    rewrite vector_fetchCallBack_known in Hfetch by done. cbv zeta in Hfetch.
    destruct (truthy _); [|by simplify_eq].
    destruct (strcmp _ _ =? 0); simplify_eq; [|done].
    unfold rmstatus, unlink. simpl. apply lookup_delete_ne.
    intros Hpath. apply statuspath_taskname_inj in Hpath as [-> ->]; [|done..].
    by destruct Hother. }
  destruct (same_record_status _ _ _ _ Hsame) as (Hhas & Hget & _).
  split; [done|]. split; [done|].
  rewrite !vector_fetchCallBack_known by done. rewrite Hhas, Hget. cbv zeta.
  by repeat case_match.
Qed.

Lemma fetch_leaves_other_keys_witness :
  let w := World {[ statuspath "cpuflamegraph" 7 := File (line "DONE");
                    statuspath "cpuflamegraph" 8 := File (line "DONE") ]} ∅ [] [] in
  let w' := rmstatus w "cpuflamegraph" 7 in
  hasstatus w' (taskname VECTOR_TASK_CPUFLAMEGRAPH) 8
  = hasstatus w (taskname VECTOR_TASK_CPUFLAMEGRAPH) 8
  ∧ getstatus w' (taskname VECTOR_TASK_CPUFLAMEGRAPH) statusmsg_size 8
    = getstatus w (taskname VECTOR_TASK_CPUFLAMEGRAPH) statusmsg_size 8
  ∧ (vector_fetchCallBack 0 VECTOR_TASK_CPUFLAMEGRAPH PM_IN_NULL 8 w').1
    = (vector_fetchCallBack 0 VECTOR_TASK_CPUFLAMEGRAPH PM_IN_NULL 8 w).1.
Proof.
  intros w w'.
  apply (fetch_leaves_other_keys VECTOR_TASK_CPUFLAMEGRAPH VECTOR_TASK_CPUFLAMEGRAPH 7 8 w
           PMDA_FETCH_STATIC (Some "DONE cpuflamegraph/cpuflamegraph.7.svg") w');
    [lia | lia | right; lia | reflexivity].
Defined.

(** X10: for a known task type, what a store returns and what a fetch
    returns and answers depend on the status file of the key alone: two
    worlds that agree on this one file give the same results, whatever else
    is in them (other sessions, other task types, the environment). *)
Theorem own_record_decides item numval value ctx sp w1 w2 :
  0 ≤ item < VECTOR_TASK_METRIC_COUNT →
  same_record (taskname item) ctx w1 w2 →
  fst <$> vector_store 0 item numval value ctx sp w1
  = fst <$> vector_store 0 item numval value ctx sp w2
  ∧ (vector_fetchCallBack 0 item PM_IN_NULL ctx w1).1
    = (vector_fetchCallBack 0 item PM_IN_NULL ctx w2).1.
Proof.
  intros Hitem Hsame.
  destruct (same_record_status _ _ _ _ Hsame) as (Hhas & Hget & Hbusy).
  split.
  - rewrite !vector_store_shape. rewrite Hbusy. cbv zeta.
    destruct (negb (0 =? 0) || negb (numval =? 1)); [done|].
    destruct (negb _); [done|].
    destruct (takes_argument_dec item && _); [done|].
    destruct (busy w2 (taskname item) ctx); [done|].
    destruct (takes_argument_dec item); [|done].
    by destruct (sprintf_into _ _).
  - rewrite !vector_fetchCallBack_known by done. rewrite Hhas, Hget. cbv zeta.
    by repeat case_match.
Qed.

Lemma own_record_decides_witness :
  let w2 := World {[ statuspath "cpuflamegraph" 7 := File (line "profiling 50%");
                     statuspath "cpuflamegraph" 8 := File (line "DONE");
                     statuspath "jstackflamegraph" 7 := Faulty ]}
              {[ "PCP_CONTAINER_NAME" := "web" ]} ["ls"] ["x"] in
  fst <$> vector_store 0 VECTOR_TASK_CPUFLAMEGRAPH 1 (Some "30") 7 (Spawn 0 "") cpu_progress
  = fst <$> vector_store 0 VECTOR_TASK_CPUFLAMEGRAPH 1 (Some "30") 7 (Spawn 0 "") w2
  ∧ (vector_fetchCallBack 0 VECTOR_TASK_CPUFLAMEGRAPH PM_IN_NULL 7 cpu_progress).1
    = (vector_fetchCallBack 0 VECTOR_TASK_CPUFLAMEGRAPH PM_IN_NULL 7 w2).1.
Proof.
  intros w2. apply own_record_decides; [lia|reflexivity].
Defined.

(** ** The life of a record *)

(** X11: a record ["DONE"] is delivered by exactly one of the fetches that
    follow: of [n + 1] fetches in a row on the key the first answers the done
    message, all the others answer ["IDLE"], and the record is gone. *)
Theorem fetches_DONE_then_IDLE item ctx w n :
  0 ≤ item < VECTOR_TASK_METRIC_COUNT →
  getstatus w (taskname item) statusmsg_size ctx = "DONE" →
  fetches (S n) item ctx w
  = (Some (if takes_argument_dec item then done_message item ctx else "DONE")
       :: replicate n (Some "IDLE"),
     rmstatus w (taskname item) ctx).
Proof.
  intros Hitem Hdone. simpl. rewrite fetch_DONE by done.
  erewrite fetches_unchanged; [done..|].
  apply fetch_idle; [done|]. apply files_rmstatus.
Qed.

Lemma fetches_DONE_then_IDLE_witness :
  fetches 4 VECTOR_TASK_CPUFLAMEGRAPH 7 cpu_DONE
  = (Some (if takes_argument_dec VECTOR_TASK_CPUFLAMEGRAPH
           then done_message VECTOR_TASK_CPUFLAMEGRAPH 7 else "DONE")
       :: replicate 3 (Some "IDLE"),
     rmstatus cpu_DONE (taskname VECTOR_TASK_CPUFLAMEGRAPH) 7).
Proof. apply fetches_DONE_then_IDLE; [lia|reflexivity]. Defined.

(** X12: once a fetch has delivered ["DONE"], the key is free again: a
    store on the key in the world the fetch leaves (with an argument that
    passes validation and fits the command buffer) returns 0 and hands one
    command to the shell. *)
Theorem store_after_delivered_DONE item value ctx sp w :
  0 ≤ item < VECTOR_TASK_METRIC_COUNT →
  getstatus w (taskname item) statusmsg_size ctx = "DONE" →
  badinput (secs_of value) = 0 →
  (String.length (secs_of value) ≤ 201)%nat →
  ∃ w1 w2 cmd,
    (vector_fetchCallBack 0 item PM_IN_NULL ctx w).2 = w1
    ∧ vector_store 0 item 1 value ctx sp w1 = Some (RET_0, w2)
    ∧ launched w2 = launched w ++ [cmd]
    ∧ hasstatus w2 (taskname item) ctx = 0.
Proof.
  intros Hitem Hdone Hvalid Hlen. rewrite fetch_DONE by done. simpl.
  eexists _, _, _. split; [done|].
  split; [apply store_launches; [done..|]; apply busy_false_absent, files_rmstatus|].
  match goal with |- context [launch ?cmd sp ?w0] =>
    destruct (launch_effect cmd sp w0) as (Hf & _ & -> & _) end.
  split; [done|].
  unfold hasstatus, open_rdonly. rewrite Hf. simpl.
  by rewrite lookup_delete_eq.
Qed.

Lemma store_after_delivered_DONE_witness :
  ∃ w1 w2 cmd,
    (vector_fetchCallBack 0 VECTOR_TASK_CPUFLAMEGRAPH PM_IN_NULL 7 cpu_DONE).2 = w1
    ∧ vector_store 0 VECTOR_TASK_CPUFLAMEGRAPH 1 (Some "30") 7 (Spawn 0 "") w1
      = Some (RET_0, w2)
    ∧ launched w2 = launched cpu_DONE ++ [cmd]
    ∧ hasstatus w2 (taskname VECTOR_TASK_CPUFLAMEGRAPH) 7 = 0.
Proof.
  apply store_after_delivered_DONE; [lia|reflexivity|reflexivity|simpl; lia].
Defined.

(** X13: a store on a key whose record is ["DONE"] and was not fetched yet,
    with an argument that can be launched (for the task types that take the
    argument: it passes validation, and the name of the task type and the
    argument have at most 223 characters together), returns 0 and leaves that
    record where it is: a fetch in the world the store leaves, before the
    worker of the new launch has written anything, is answered the done
    message of the run before and removes the record. *)
Theorem store_on_DONE_keeps_old_record item value ctx sp w :
  0 ≤ item < VECTOR_TASK_METRIC_COUNT →
  getstatus w (taskname item) statusmsg_size ctx = "DONE" →
  launchable item value →
  ∃ w1,
    vector_store 0 item 1 value ctx sp w = Some (RET_0, w1)
    ∧ getstatus w1 (taskname item) statusmsg_size ctx = "DONE"
    ∧ vector_fetchCallBack 0 item PM_IN_NULL ctx w1
      = (PMDA_FETCH_STATIC,
         Some (if takes_argument_dec item then done_message item ctx else "DONE"),
         rmstatus w1 (taskname item) ctx).
Proof.
  intros Hitem Hdone Hvalue. eexists.
  split; [by apply store_launches_launchable, busy_false_DONE|].
  match goal with |- context [launch ?cmd sp ?w0] =>
    pose proof (launch_effect cmd sp w0) as (Hf & _);
    set (w1 := launch cmd sp w0) in * end.
  assert (getstatus w1 (taskname item) statusmsg_size ctx = "DONE") as Hdone1.
  { rewrite <-Hdone. unfold getstatus, open_rdonly. by rewrite Hf. }
  split; [done|]. by apply fetch_DONE.
Qed.

Lemma store_on_DONE_keeps_old_record_witness :
  ∃ w1,
    vector_store 0 VECTOR_TASK_CPUFLAMEGRAPH 1 (Some digits_210) 7 (Spawn 0 "") cpu_DONE
    = Some (RET_0, w1)
    ∧ getstatus w1 (taskname VECTOR_TASK_CPUFLAMEGRAPH) statusmsg_size 7 = "DONE"
    ∧ vector_fetchCallBack 0 VECTOR_TASK_CPUFLAMEGRAPH PM_IN_NULL 7 w1
      = (PMDA_FETCH_STATIC,
         Some (if takes_argument_dec VECTOR_TASK_CPUFLAMEGRAPH
               then done_message VECTOR_TASK_CPUFLAMEGRAPH 7 else "DONE"),
         rmstatus w1 (taskname VECTOR_TASK_CPUFLAMEGRAPH) 7).
Proof.
  apply store_on_DONE_keeps_old_record;
    [lia | reflexivity
    | intros _; split; [reflexivity | apply Nat.leb_le; reflexivity]].
Defined.

(** ** The status and the argument *)

Lemma cstr_fixed_no_NUL (s : string) : cstr s = s → NUL ∉ chars s.
Proof.
  induction s as [|c s IH]; intros Hs; [by apply not_elem_of_nil|].
  apply cstr_fixed_cons in Hs as [Hc Hs]. unfold chars in *. simpl.
  apply not_elem_of_cons. split; [done|by apply IH].
Qed.

(** X14: whatever the status file holds, the status [getstatus] reads into
    [statusmsg] is a C string of at most 255 characters, and none of them is
    NUL. *)
Theorem getstatus_short_C_string w metric ctx :
  (String.length (getstatus w metric statusmsg_size ctx) ≤ 255)%nat
  ∧ NUL ∉ chars (getstatus w metric statusmsg_size ctx).
Proof.
  split; [apply length_getstatus|]. apply cstr_fixed_no_NUL, getstatus_cstr.
Qed.

(** X15: [badinput] returns 0 on the strings made of decimal digits alone
    (the empty string is one) and 1 on every other string. *)
Theorem badinput_decides_digits (s : string) :
  (badinput s = 0 ∧ Forall is_digit (chars s))
  ∨ (badinput s = 1 ∧ ∃ c, c ∈ chars s ∧ ¬ is_digit c).
Proof.
  destruct (badinput_range s) as [H|H].
  - left. split; [done|]. by apply badinput_0_iff.
  - right. split; [done|]. by apply badinput_1_iff.
Qed.

Lemma length_command_with_argument item secs :
  String.length (command_with_argument item secs)
  = (32 + String.length (taskname item) + String.length secs)%nat.
Proof.
  unfold command_with_argument, VECTOR_DIR. rewrite !length_append. simpl. lia.
Qed.

(** X16: the command of a task type with argument is printed into
    [cmd[256]]; for a request that passes validation and the busy check, the
    command fits, and the store returns, exactly when the name of the task
    type and the argument have at most 223 characters together. *)
Theorem store_command_fits_iff item value ctx sp w :
  takes_argument item →
  badinput (secs_of value) = 0 →
  busy w (taskname item) ctx = false →
  is_Some (vector_store 0 item 1 value ctx sp w)
  ↔ (String.length (taskname item) + String.length (secs_of value) ≤ 223)%nat.
Proof.
  intros Harg Hvalid Hidle.
  rewrite vector_store_with_argument by done. simpl.
  rewrite Hvalid, busy_setenv, Hidle. simpl.
  unfold sprintf_into, cmd_size. rewrite length_command_with_argument.
  destruct (Nat.ltb_spec
              (32 + String.length (taskname item) + String.length (secs_of value)) 256)
    as [Hfit|Hfit]; simpl.
  - split; [lia|done].
  - split; [by intros [? [=]]|lia].
Qed.

Lemma store_command_fits_iff_witness :
  is_Some (vector_store 0 VECTOR_TASK_CPUFLAMEGRAPH 1 (Some "30") 7 (Spawn 0 "") empty_world)
  ↔ (String.length (taskname VECTOR_TASK_CPUFLAMEGRAPH)
     + String.length (secs_of (Some "30")) ≤ 223)%nat.
Proof.
  apply store_command_fits_iff;
    [unfold takes_argument; lia | reflexivity | reflexivity].
Defined.

(** X17: when a store of a known task type finds a record and its argument
    passes validation (and fits the command buffer), the status of the
    record decides: the store returns 0 when the status is ["DONE"] or begins
    with ["ERROR"], and [PM_ERR_AGAIN] on every other status. *)
Theorem store_with_record_decides item value ctx sp w :
  0 ≤ item < VECTOR_TASK_METRIC_COUNT →
  hasstatus w (taskname item) ctx = 1 →
  badinput (secs_of value) = 0 →
  (String.length (secs_of value) ≤ 201)%nat →
  let status := getstatus w (taskname item) statusmsg_size ctx in
  fst <$> vector_store 0 item 1 value ctx sp w
  = Some (if bool_decide (status = "DONE") || String.prefix "ERROR" status
          then RET_0 else PM_ERR_AGAIN).
Proof.
  intros Hitem Hhas Hvalid Hlen status.
  case_bool_decide as Hdone; simpl.
  - rewrite store_launches; [done..|]. by apply busy_false_DONE.
  - destruct (String.prefix "ERROR" status) eqn:Herror.
    + rewrite store_launches; [done..|]. by apply busy_false_ERROR.
    + rewrite store_busy; [done..|]. by apply busy_true.
Qed.

Lemma store_with_record_decides_witness :
  let status := getstatus cpu_progress (taskname VECTOR_TASK_CPUFLAMEGRAPH) statusmsg_size 7 in
  fst <$> vector_store 0 VECTOR_TASK_CPUFLAMEGRAPH 1 (Some "30") 7 (Spawn 0 "") cpu_progress
  = Some (if bool_decide (status = "DONE") || String.prefix "ERROR" status
          then RET_0 else PM_ERR_AGAIN).
Proof.
  apply store_with_record_decides; [lia | reflexivity | reflexivity | simpl; lia].
Defined.

(** ** The container attribute *)

Section Attribute.

Variable PCP_ATTR_CONTAINER : Z.

Implicit Types (value buf : string) (w : world).

Lemma append_empty_r (s : string) : s +:+ "" = s.
Proof. induction s as [|c s IH]; [done|]. by rewrite append_String, IH. Qed.

Lemma length_nuls n : String.length (nuls n) = n.
Proof. induction n as [|n IH]; [done|]. simpl. by rewrite IH. Qed.

Lemma length_substring (n m : nat) (s : string) :
  (n + m ≤ String.length s)%nat → String.length (String.substring n m s) = m.
Proof.
  revert n m. induction s as [|c s IH]; intros [|n] [|m] Hlen; simpl in *;
    try done; try lia.
  - rewrite IH; [done|lia].
  - apply IH. lia.
  - apply IH. lia.
Qed.

Lemma substring_0_append_l (k : nat) (s t : string) :
  (k ≤ String.length s)%nat →
  String.substring 0 k (s +:+ t) = String.substring 0 k s.
Proof.
  revert s. induction k as [|k IH]; intros s Hk.
  - by destruct (s +:+ t), s.
  - destruct s as [|c s]; [simpl in Hk; lia|].
    rewrite append_String. simpl in *. rewrite IH; [done|lia].
Qed.

Lemma substring_0_append_r (k : nat) (s t : string) :
  (String.length s ≤ k)%nat →
  String.substring 0 k (s +:+ t) = s +:+ String.substring 0 (k - String.length s) t.
Proof.
  revert k. induction s as [|c s IH]; intros k Hk; simpl in *.
  - change ("" +:+ t) with t. by rewrite Nat.sub_0_r.
  - destruct k as [|k]; [lia|]. rewrite !append_String. simpl.
    rewrite IH; [done|lia].
Qed.

Lemma substring_0_nuls (j k : nat) :
  (j ≤ k)%nat → String.substring 0 j (nuls k) = nuls j.
Proof.
  revert k. induction j as [|j IH]; intros [|k] Hjk; simpl; try done; try lia.
  rewrite IH; [done|lia].
Qed.

Lemma cstr_substring_0 (k : nat) (s : string) :
  cstr s = s → cstr (String.substring 0 k s) = String.substring 0 k s.
Proof.
  revert s. induction k as [|k IH]; intros [|c s] Hs; try done.
  apply cstr_fixed_cons in Hs as [Hc Hs].
  change (String.substring 0 (S k) (String c s)) with (String c (String.substring 0 k s)).
  apply cstr_fixed_cons. split; [done|by apply IH].
Qed.

(** The C string of a buffer that begins with a text without NUL. *)
Lemma terminated_append (s buf : string) :
  cstr s = s → terminated (s +:+ buf) = String.app s <$> terminated buf.
Proof.
  induction s as [|c s IH]; intros Hs.
  - change ("" +:+ buf) with buf. by destruct (terminated buf).
  - apply cstr_fixed_cons in Hs as [Hc Hs]. rewrite append_String. simpl.
    apply Ascii.eqb_neq in Hc. rewrite Hc, (IH Hs).
    by destruct (terminated buf).
Qed.

(** What [strncpy] leaves in the buffer, by the place of [n]. *)
Lemma strncpy_whole value buf (n : Z) :
  Z.of_nat (String.length value) < n ≤ Z.of_nat (String.length buf) →
  strncpy buf value n =
    Some (value +:+ nuls (Z.to_nat n - String.length value)
          +:+ String.substring (Z.to_nat n) (String.length buf - Z.to_nat n) buf).
Proof.
  intros Hn. unfold strncpy.
  destruct (Z.ltb_spec n 0); [lia|]. destruct (Z.ltb_spec (Z.of_nat (String.length buf)) n);
    [lia|]. simpl.
  rewrite substring_0_append_r by lia. rewrite substring_0_nuls by lia.
  by rewrite append_assoc.
Qed.

Lemma strncpy_cut value buf (n : Z) :
  0 ≤ n ≤ Z.of_nat (String.length value) →
  n ≤ Z.of_nat (String.length buf) →
  strncpy buf value n =
    Some (String.substring 0 (Z.to_nat n) value
          +:+ String.substring (Z.to_nat n) (String.length buf - Z.to_nat n) buf).
Proof.
  intros Hn Hbuf. unfold strncpy.
  destruct (Z.ltb_spec n 0); [lia|]. destruct (Z.ltb_spec (Z.of_nat (String.length buf)) n);
    [lia|]. simpl.
  by rewrite substring_0_append_l by lia.
Qed.

Lemma length_strncpy value buf (n : Z) buf' :
  strncpy buf value n = Some buf' → String.length buf' = String.length buf.
Proof.
  unfold strncpy.
  destruct (Z.ltb_spec n 0); [done|]. destruct (Z.ltb_spec (Z.of_nat (String.length buf)) n);
    [done|]. simpl. intros [= <-].
  rewrite length_append, !length_substring; [lia|lia|].
  rewrite length_append, length_nuls. lia.
Qed.

(** X18: the container attribute with a length that takes in the NUL of
    the value ([len] above the length of the value, at most the 256 bytes of
    the buffer): the call returns 0, the buffer holds the value as a C
    string and PCP_CONTAINER_NAME is set to the value. *)
Theorem vector_attribute_sets_container ctx value len buf w :
  String.length buf = CONTAINER_NAME_MAX →
  cstr value = value →
  Z.of_nat (String.length value) < len ≤ Z.of_nat CONTAINER_NAME_MAX →
  ∃ buf',
    vector_attribute PCP_ATTR_CONTAINER ctx PCP_ATTR_CONTAINER value len buf w
    = Some (0, buf', setenv "PCP_CONTAINER_NAME" value w)
    ∧ String.length buf' = CONTAINER_NAME_MAX
    ∧ terminated buf' = Some value.
Proof.
  intros Hbuf Hvalue Hlen. unfold vector_attribute. rewrite Z.eqb_refl.
  pose proof (strncpy_whole value buf len) as Hcpy.
  rewrite Hbuf in Hcpy. specialize (Hcpy Hlen).
  assert (terminated
            (value +:+ nuls (Z.to_nat len - String.length value)
             +:+ String.substring (Z.to_nat len) (CONTAINER_NAME_MAX - Z.to_nat len) buf)
          = Some value) as Hterm.
  { rewrite terminated_append by done.
    destruct (Z.to_nat len - String.length value)%nat as [|k] eqn:Hk; [lia|].
    simpl. by rewrite append_empty_r. }
  eexists. rewrite Hcpy. simpl. rewrite Hterm. simpl.
  split; [done|]. split; [|done].
  rewrite <-Hbuf. eapply length_strncpy. by rewrite Hbuf.
Qed.

(** X19: the container attribute with a length that stops inside the value
    or at its end ([len] at most the length of the value): no NUL is written,
    so the name that is set is the first [len] characters of the value
    followed by what the buffer held from byte [len] on, the rest of an older
    and longer name with it. *)
Theorem vector_attribute_cut_keeps_tail ctx value len buf w tail :
  String.length buf = CONTAINER_NAME_MAX →
  cstr value = value →
  0 ≤ len ≤ Z.of_nat (String.length value) →
  len ≤ Z.of_nat CONTAINER_NAME_MAX →
  terminated (String.substring (Z.to_nat len) (CONTAINER_NAME_MAX - Z.to_nat len) buf)
  = Some tail →
  ∃ buf',
    vector_attribute PCP_ATTR_CONTAINER ctx PCP_ATTR_CONTAINER value len buf w
    = Some (0, buf',
            setenv "PCP_CONTAINER_NAME"
              (String.substring 0 (Z.to_nat len) value +:+ tail) w)
    ∧ String.length buf' = CONTAINER_NAME_MAX.
Proof.
  intros Hbuf Hvalue Hlen Hmax Htail. unfold vector_attribute. rewrite Z.eqb_refl.
  pose proof (strncpy_cut value buf len Hlen) as Hcpy.
  rewrite Hbuf in Hcpy. specialize (Hcpy Hmax).
  eexists. rewrite Hcpy. simpl.
  rewrite terminated_append by by apply cstr_substring_0.
  rewrite Htail. simpl. split; [done|].
  rewrite <-Hbuf. eapply length_strncpy. by rewrite Hbuf.
Qed.

End Attribute.

Lemma vector_attribute_sets_container_witness :
  ∃ buf',
    vector_attribute 15 7 15 "web" 4 container_name_init
      empty_world
    = Some (0, buf', setenv "PCP_CONTAINER_NAME" "web" empty_world)
    ∧ String.length buf' = CONTAINER_NAME_MAX
    ∧ terminated buf' = Some "web".
Proof.
  apply vector_attribute_sets_container;
    [reflexivity | reflexivity | vm_compute; split; [reflexivity|discriminate]].
Defined.

Lemma vector_attribute_cut_keeps_tail_witness :
  ∃ buf',
    vector_attribute 15 7 15 "db" 2 ("webserver" +:+ nuls 247) empty_world
    = Some (0, buf',
            setenv "PCP_CONTAINER_NAME"
              (String.substring 0 (Z.to_nat 2) "db" +:+ "bserver") empty_world)
    ∧ String.length buf' = CONTAINER_NAME_MAX.
Proof.
  apply vector_attribute_cut_keeps_tail;
    [reflexivity | reflexivity | vm_compute; split; discriminate
    | vm_compute; discriminate | reflexivity].
Defined.

(** X20: [vector_attribute] looks at the container attribute alone: for
    every other attribute it returns 0 and changes nothing. For the
    container attribute a length that is negative or above the size of the
    buffer writes past its end; and whenever the call returns, it returns 0,
    the buffer has the size it had, and of the world nothing but
    PCP_CONTAINER_NAME is changed. *)
Theorem vector_attribute_effects (PCP_ATTR_CONTAINER : Z) (ctx attr : Z)
    (value : string) (len : Z) (buf : string) (w : world) :
  (attr ≠ PCP_ATTR_CONTAINER →
   vector_attribute PCP_ATTR_CONTAINER ctx attr value len buf w = Some (0, buf, w))
  ∧ (attr = PCP_ATTR_CONTAINER →
     len < 0 ∨ Z.of_nat (String.length buf) < len →
     vector_attribute PCP_ATTR_CONTAINER ctx attr value len buf w = None)
  ∧ (∀ r buf' w',
       vector_attribute PCP_ATTR_CONTAINER ctx attr value len buf w = Some (r, buf', w') →
       r = 0
       ∧ String.length buf' = String.length buf
       ∧ files w' = files w ∧ launched w' = launched w ∧ errlog w' = errlog w
       ∧ ∀ name, name ≠ "PCP_CONTAINER_NAME" → environ w' !! name = environ w !! name).
Proof.
  unfold vector_attribute. split; [|split].
  - intros Hattr. apply Z.eqb_neq in Hattr. by rewrite Hattr.
  - intros -> Hlen. rewrite Z.eqb_refl. unfold strncpy.
    by destruct (Z.ltb_spec len 0), (Z.ltb_spec (Z.of_nat (String.length buf)) len);
      try lia.
  - intros r buf' w' Hcall. destruct (attr =? PCP_ATTR_CONTAINER).
    + destruct (strncpy buf value len) as [buf1|] eqn:Hcpy; [|done]. simpl in Hcall.
      destruct (terminated buf1) as [name1|]; [|done]. simplify_eq/=.
      split; [done|]. split; [by eapply length_strncpy|].
      do 3 (split; [done|]). intros name Hname. by apply lookup_insert_ne.
    + by simplify_eq.
Qed.

Lemma vector_attribute_effects_witness :
  vector_attribute 15 7 5 "alice" 6 container_name_init empty_world
  = Some (0, container_name_init, empty_world)
  ∧ vector_attribute 15 7 15 "web" 300 container_name_init empty_world = None
  ∧ vector_attribute 15 7 15 "web" (-1) container_name_init empty_world = None.
Proof.
  destruct (vector_attribute_effects 15 7 5 "alice" 6 container_name_init empty_world)
    as (Hother & _).
  destruct (vector_attribute_effects 15 7 15 "web" 300 container_name_init empty_world)
    as (_ & Hlong & _).
  destruct (vector_attribute_effects 15 7 15 "web" (-1) container_name_init empty_world)
    as (_ & Hneg & _).
  split; [apply Hother; lia|].
  split; [apply Hlong; [reflexivity|right; vm_compute; reflexivity]|].
  apply Hneg; [reflexivity|left; lia].
Defined.

(** ** Records that are not one short line *)

Lemma cstr_append_NUL (text rest : string) :
  cstr text = text → cstr (text +:+ String NUL rest) = text.
Proof.
  induction text as [|c text IH]; intros Htext; [done|].
  apply cstr_fixed_cons in Htext as [Hc Htext].
  rewrite append_String. simpl. apply Ascii.eqb_neq in Hc. by rewrite Hc, IH.
Qed.

(** X21: of a record of 256 bytes or more [getstatus] reads the first 256
    bytes alone: the status is the C string of the first 255 bytes, whatever
    follows them. *)
Theorem getstatus_long_record w metric ctx data :
  files w !! statuspath metric ctx = Some (File data) →
  (256 ≤ String.length data)%nat →
  getstatus w metric statusmsg_size ctx = cstr (String.substring 0 255 data).
Proof.
  intros Hfile Hlen. rewrite (getstatus_file _ _ _ _ _ Hfile). simpl.
  unfold statusmsg_size. rewrite Z.min_r by lia. done.
Qed.

Lemma getstatus_long_record_witness :
  getstatus (one_file (statuspath "cpuflamegraph" 7) (File (line long_text)))
    "cpuflamegraph" statusmsg_size 7
  = cstr (String.substring 0 255 (line long_text)).
Proof.
  apply getstatus_long_record; [reflexivity|vm_compute; lia].
Defined.

(** X22: a NUL byte in a record ends the status: of a record that holds a
    text without NUL, a NUL and at least one more byte, with the NUL among
    the first 255 bytes, [getstatus] returns the text before the NUL, the
    empty string when the record begins with the NUL. *)
Theorem getstatus_NUL_ends_status w metric ctx text rest :
  files w !! statuspath metric ctx = Some (File (text +:+ String NUL rest)) →
  cstr text = text →
  rest ≠ "" →
  (String.length text < 255)%nat →
  getstatus w metric statusmsg_size ctx = text.
Proof.
  intros Hfile Htext Hrest Hlen. rewrite (getstatus_file _ _ _ _ _ Hfile). simpl.
  rewrite length_append. simpl.
  assert (0 < String.length rest)%nat by (destruct rest; [done|simpl; lia]).
  unfold statusmsg_size.
  destruct (Z.ltb_spec 1
              (Z.min (Z.of_nat (String.length text + S (String.length rest))) 256));
    [|lia].
  rewrite substring_0_append_r by lia.
  destruct (Z.to_nat _ - String.length text)%nat as [|k] eqn:Hk; [lia|].
  simpl. exact (cstr_append_NUL text _ Htext).
Qed.

Lemma getstatus_NUL_ends_status_witness :
  getstatus
    (one_file (statuspath "cpuflamegraph" 7)
       (File ("DONE" +:+ String NUL (line "ERROR"))))
    "cpuflamegraph" statusmsg_size 7
  = "DONE".
Proof.
  apply (getstatus_NUL_ends_status _ _ _ "DONE" (line "ERROR"));
    [reflexivity | reflexivity | discriminate | simpl; lia].
Defined.
